(** * Traefik dynamic-configuration synthesizer (server/lib/traefik/getTraefikConfig.ts)

    A shallow embedding of [getTraefikConfig]: the rows of the bulk query are
    grouped into route groups, and every group writes routers, services and
    middlewares into one shared output document.

    JavaScript values are modelled as follows.
    - [string | null] is [option string], [number | null] is [option Z],
      [boolean | null] is [option bool]; truthiness is written out.
    - A plain object used as a dictionary is a [gmap string _]; the insertion
      ordered [Map] of route groups is an association list.
    - A thrown [TypeError] is the [Thrown] outcome of a small error monad.
    - Collaborators that live in other files ([sanitize],
      [validatePathRewriteConfig], [createPathRewriteMiddleware],
      [JSON.parse], the process configuration) are parameters. *)

From stdpp Require Import base option list gmap strings pretty fin_maps.
From Stdlib Require Import ZArith Ascii String Bool Lia.

Open Scope string_scope.
Open Scope Z_scope.
Open Scope list_scope.
Open Scope stdpp_scope.

(** ** JavaScript primitives *)

Module Js.

(** [Boolean(s)] for a [string | null]. *)
Definition truthyS (s : option string) : bool :=
  match s with
  | Some (String _ _) => true
  | _ => false
  end.

(** [Boolean(n)] for an integral [number | null]. *)
Definition truthyZ (n : option Z) : bool :=
  match n with
  | Some n => negb (n =? 0)%Z
  | None => false
  end.

(** [Boolean(b)] for a [boolean | null]. *)
Definition truthyB (b : option bool) : bool :=
  match b with
  | Some true => true
  | _ => false
  end.

(** [s || ""] for a [string | null | undefined]. *)
Definition orEmpty (s : option string) : string :=
  match s with
  | Some t => t
  | None => ""
  end.

(** A value inside a template literal: [null] prints as the word null. *)
Definition tmplS (s : option string) : string :=
  match s with
  | Some t => t
  | None => "null"
  end.

Definition tmplZ (n : option Z) : string :=
  match n with
  | Some n => pretty n
  | None => "null"
  end.

(** An [undefined] string inside a template literal. *)
Definition tmplU (s : option string) : string :=
  match s with
  | Some t => t
  | None => "undefined"
  end.

Definition nonEmpty (s : string) : bool :=
  match s with
  | String _ _ => true
  | EmptyString => false
  end.

(** [parts.filter(Boolean).join("-")] on an array of strings. *)
Definition joinTruthy (parts : list string) : string :=
  String.concat "-" (List.filter nonEmpty parts).

(** [s.split(sep)] for a one-character separator. *)
Fixpoint split (sep : ascii) (s : string) : list string :=
  match s with
  | EmptyString => [EmptyString]
  | String c rest =>
      if Ascii.eqb c sep then EmptyString :: split sep rest
      else match split sep rest with
           | [] => [String c EmptyString]
           | h :: t => String c h :: t
           end
  end.

(** [parts.join(sep)]. *)
Definition join (sep : string) (parts : list string) : string :=
  String.concat sep parts.

(** [parts.slice(1)]. *)
Definition slice1 {A} (parts : list A) : list A := List.tl parts.

Definition isSpace (c : ascii) : bool :=
  let n := nat_of_ascii c in
  ((9 <=? n) && (n <=? 13))%nat || (n =? 32)%nat.

Fixpoint trimStart (s : string) : string :=
  match s with
  | String c rest => if isSpace c then trimStart rest else s
  | EmptyString => EmptyString
  end.

Fixpoint revOnto (s acc : string) : string :=
  match s with
  | EmptyString => acc
  | String c rest => revOnto rest (String c acc)
  end.

Definition reverse (s : string) : string := revOnto s EmptyString.

(** [s.trim()], on the ASCII white space characters. *)
Definition trim (s : string) : string :=
  reverse (trimStart (reverse (trimStart s))).

Definition lowerChar (c : ascii) : ascii :=
  let n := nat_of_ascii c in
  if ((65 <=? n) && (n <=? 90))%nat then ascii_of_nat (n + 32) else c.

(** [s.toLowerCase()], on the ASCII letters. *)
Fixpoint toLowerCase (s : string) : string :=
  match s with
  | EmptyString => EmptyString
  | String c rest => String (lowerChar c) (toLowerCase rest)
  end.

(** [s.startsWith("/")]. *)
Definition startsWithSlash (s : string) : bool :=
  match s with
  | String c _ => Ascii.eqb c "/"%char
  | EmptyString => false
  end.

(** [a.findIndex(p)]; [None] stands for -1. *)
Fixpoint findIndex {A} (p : A -> bool) (a : list A) : option nat :=
  match a with
  | [] => None
  | x :: rest => if p x then Some O else option_map S (findIndex p rest)
  end.

(** [a.filter((v, i) => p(v, i))], the index counted from [i]. *)
Fixpoint filterFrom {A} (i : nat) (p : A -> nat -> bool) (a : list A) : list A :=
  match a with
  | [] => []
  | x :: rest =>
      if p x i then x :: filterFrom (S i) p rest else filterFrom (S i) p rest
  end.

Definition filterIdx {A} (p : A -> nat -> bool) (a : list A) : list A :=
  filterFrom O p a.

(** The outcome of a call: a value, or a thrown [TypeError]. *)
Inductive outcome (A : Type) : Type :=
  | Returned (a : A)
  | Thrown (what : string).

Arguments Returned {A} a.
Arguments Thrown {A} what.

Definition bind {A B} (m : outcome A) (k : A -> outcome B) : outcome B :=
  match m with
  | Returned a => k a
  | Thrown w => Thrown w
  end.

End Js.

#[global]
Instance outcome_ret : MRet Js.outcome := fun _ a => Js.Returned a.

#[global]
Instance outcome_bind : MBind Js.outcome := fun _ _ k m => Js.bind m k.

(** ** Data model *)

(** One row of the bulk query (the [select] list of [getTraefikConfig]). *)
Module DbRow.
Record t := mk {
  resourceId : Z;
  resourceName : option string;
  fullDomain : option string;
  ssl : bool;
  http : bool;
  proxyPort : option Z;
  protocol : string;
  subdomain : option string;
  domainId : option string;
  enabled : bool;
  stickySession : bool;
  tlsServerName : option string;
  setHostHeader : option string;
  enableProxy : option bool;
  headers : option string;
  proxyProtocol : bool;
  proxyProtocolVersion : option Z;
  maintenanceModeEnabled : bool;
  maintenanceModeType : option string;
  maintenanceTitle : option string;
  maintenanceMessage : option string;
  maintenanceEstimatedTime : option string;
  targetId : Z;
  targetEnabled : bool;
  ip : option string;
  method : option string;
  port : option Z;
  internalPort : option Z;
  hcHealth : option string;
  path : option string;
  pathMatchType : option string;
  rewritePath : option string;
  rewritePathType : option string;
  priority : option Z;
  siteId : Z;
  siteType : option string;
  siteOnline : bool;
  subnet : option string;
  exitNodeId : option Z;
  domainCertResolver : option string
}.
End DbRow.

(** The [site] object embedded in a target. *)
Module Site.
Record t := mk {
  siteId : Z;
  type : option string;
  subnet : option string;
  exitNodeId : option Z;
  online : bool
}.
End Site.

(** [TargetWithSite]: what the aggregator pushes on a group's target list. *)
Module Target.
Record t := mk {
  resourceId : Z;
  targetId : Z;
  ip : option string;
  method : option string;
  port : option Z;
  internalPort : option Z;
  enabled : bool;
  site : Site.t
}.
End Target.

(** A route group: the object stored in [resourcesMap]. The object literal
    of the aggregator has no [preferWildcardCert] property; reading it later
    yields [undefined], which is what the field holds here. *)
Module Resource.
Record t := mk {
  resourceId : Z;
  name : string;
  fullDomain : option string;
  ssl : bool;
  http : bool;
  proxyPort : option Z;
  protocol : string;
  subdomain : option string;
  domainId : option string;
  enabled : bool;
  stickySession : bool;
  tlsServerName : option string;
  setHostHeader : option string;
  enableProxy : option bool;
  targets : list Target.t;
  headers : option string;
  proxyProtocol : bool;
  proxyProtocolVersion : Z;
  path : option string;
  pathMatchType : option string;
  rewritePath : option string;
  rewritePathType : option string;
  priority : Z;
  domainCertResolver : option string;
  maintenanceModeEnabled : bool;
  maintenanceModeType : option string;
  maintenanceTitle : option string;
  maintenanceMessage : option string;
  maintenanceEstimatedTime : option string;
  preferWildcardCert : option bool
}.

Definition withTargets (ts : list Target.t) (r : t) : t :=
  mk (resourceId r) (name r) (fullDomain r) (ssl r) (http r) (proxyPort r)
     (protocol r) (subdomain r) (domainId r) (enabled r) (stickySession r)
     (tlsServerName r) (setHostHeader r) (enableProxy r) ts
     (headers r) (proxyProtocol r) (proxyProtocolVersion r) (path r)
     (pathMatchType r) (rewritePath r) (rewritePathType r) (priority r)
     (domainCertResolver r) (maintenanceModeEnabled r) (maintenanceModeType r)
     (maintenanceTitle r) (maintenanceMessage r) (maintenanceEstimatedTime r)
     (preferWildcardCert r).

(** [resource.targets.push(tg)]. *)
Definition pushTarget (tg : Target.t) (r : t) : t :=
  withTargets (targets r ++ [tg]) r.
End Resource.

(** [config.getRawConfig().traefik], the keys the synthesizer reads. *)
Module Traefik.
Record t := mk {
  http_entrypoint : string;
  https_entrypoint : string;
  cert_resolver : option string;
  prefer_wildcard_cert : option bool;
  additional_middlewares : option (list string);
  maintenance_port : option Z;
  maintenance_host : option string;
  pp_transport_prefix : option string
}.
End Traefik.

(** *** The output document *)

Module Tls.
Record t := mk {
  certResolver : option string;
  (** [domains: [{ main }]], when a wildcard certificate is requested *)
  domains : option (list string)
}.
End Tls.

Module Router.
Record t := mk {
  entryPoints : list string;
  middlewares : option (list string);
  service : string;
  rule : option string;
  priority : option Z;
  tls : option Tls.t
}.
End Router.

Inductive Server : Type :=
  | Url (url : string)
  | Address (address : string).

(** [server.url], [undefined] on an entry that has no such property. *)
Definition serverUrl (s : Server) : option string :=
  match s with
  | Url u => Some u
  | Address _ => None
  end.

Inductive Sticky : Type :=
  | StickyCookie (name : string) (secure httpOnly : bool)
  | StickyIpStrategy (depth : Z) (sourcePort : bool).

(** [{ loadBalancer: { servers, passHostHeader?, sticky?, serversTransport? } }];
    an [undefined] array element is [None]. *)
Module Service.
Record t := mk {
  servers : list (option Server);
  passHostHeader : option bool;
  sticky : option Sticky;
  serversTransport : option string
}.
End Service.

(** Middleware definitions. What the path-rewrite collaborator returns is
    kept as opaque text. *)
Inductive Middleware : Type :=
  | RedirectScheme (scheme : string)
  | CustomRequestHeaders (headers : gmap string string)
  | PathRewrite (definition : string).

Module ServersTransport.
Record t := mk {
  serverName : string;
  insecureSkipVerify : bool
}.
End ServersTransport.

(** One protocol family of the document; a missing sub-map is [None]. *)
Module Family.
Record t := mk {
  routers : option (gmap string Router.t);
  services : option (gmap string Service.t);
  middlewares : option (gmap string Middleware);
  serversTransports : option (gmap string ServersTransport.t)
}.

Definition withRouters (m : gmap string Router.t) (f : t) : t :=
  mk (Some m) (services f) (middlewares f) (serversTransports f).
Definition withServices (m : gmap string Service.t) (f : t) : t :=
  mk (routers f) (Some m) (middlewares f) (serversTransports f).
Definition withMiddlewares (m : gmap string Middleware) (f : t) : t :=
  mk (routers f) (services f) (Some m) (serversTransports f).
Definition withServersTransports (m : gmap string ServersTransport.t) (f : t) : t :=
  mk (routers f) (services f) (middlewares f) (Some m).
End Family.

(** [config_output]: protocol family name to its section. *)
Abbreviation ConfigOutput := (gmap string Family.t).

(** What [createPathRewriteMiddleware] returns. *)
Module RewriteResult.
Record t := mk {
  middlewares : gmap string Middleware;
  chain : option (list string)
}.
End RewriteResult.

(** ** The synthesizer *)

Definition redirectHttpsMiddlewareName : string := "redirect-to-https".
Definition badgerMiddlewareName : string := "badger".

Section Synthesizer.

(** Collaborators defined outside this file. [sanitize] maps a
    [string | null | undefined] to a [string | undefined];
    [validatePathRewriteConfig] is read through its [isValid] field;
    [createPathRewriteMiddleware] answers [None] when it throws, and so does
    [parseHeaders], which stands for [JSON.parse] cast to an array of
    name/value pairs. *)
Variable sanitize : option string -> option string.
Variable validatePathRewriteConfig :
  option string -> option string -> option string -> option string -> bool.
Variable createPathRewriteMiddleware :
  string -> string -> string -> string -> string -> option RewriteResult.t.
Variable parseHeaders : string -> option (list (string * string)).
Variable traefik : Traefik.t.

(** *** Route-group aggregation *)

Definition targetPath (row : DbRow.t) : string :=
  Js.orEmpty (sanitize (DbRow.path row)).

Definition pathKey (row : DbRow.t) : string :=
  Js.joinTruthy [targetPath row;
                 Js.orEmpty (DbRow.pathMatchType row);
                 Js.orEmpty (DbRow.rewritePath row);
                 Js.orEmpty (DbRow.rewritePathType row)].

(** [[resourceId, pathKey].filter(Boolean).join("-")]: the number 0 and the
    empty string are dropped, the number is printed in decimal. *)
Definition mapKey (row : DbRow.t) : string :=
  Js.join "-"
    ((if (DbRow.resourceId row =? 0)%Z then [] else [pretty (DbRow.resourceId row)])
     ++ (if Js.nonEmpty (pathKey row) then [pathKey row] else [])).

Definition key (row : DbRow.t) : option string :=
  sanitize (Some (mapKey row)).

(** The group object created on the first sighting of a key. *)
Definition newGroup (row : DbRow.t) : Resource.t :=
  {| Resource.resourceId := DbRow.resourceId row;
     Resource.name := Js.orEmpty (sanitize (DbRow.resourceName row));
     Resource.fullDomain := DbRow.fullDomain row;
     Resource.ssl := DbRow.ssl row;
     Resource.http := DbRow.http row;
     Resource.proxyPort := DbRow.proxyPort row;
     Resource.protocol := DbRow.protocol row;
     Resource.subdomain := DbRow.subdomain row;
     Resource.domainId := DbRow.domainId row;
     Resource.enabled := DbRow.enabled row;
     Resource.stickySession := DbRow.stickySession row;
     Resource.tlsServerName := DbRow.tlsServerName row;
     Resource.setHostHeader := DbRow.setHostHeader row;
     Resource.enableProxy := DbRow.enableProxy row;
     Resource.targets := [];
     Resource.headers := DbRow.headers row;
     Resource.proxyProtocol := DbRow.proxyProtocol row;
     Resource.proxyProtocolVersion := default 1%Z (DbRow.proxyProtocolVersion row);
     Resource.path := DbRow.path row;
     Resource.pathMatchType := DbRow.pathMatchType row;
     Resource.rewritePath := DbRow.rewritePath row;
     Resource.rewritePathType := DbRow.rewritePathType row;
     Resource.priority := default 100%Z (DbRow.priority row);
     Resource.domainCertResolver := DbRow.domainCertResolver row;
     Resource.maintenanceModeEnabled := DbRow.maintenanceModeEnabled row;
     Resource.maintenanceModeType := DbRow.maintenanceModeType row;
     Resource.maintenanceTitle := DbRow.maintenanceTitle row;
     Resource.maintenanceMessage := DbRow.maintenanceMessage row;
     Resource.maintenanceEstimatedTime := DbRow.maintenanceEstimatedTime row;
     Resource.preferWildcardCert := None |}.

Definition targetOf (row : DbRow.t) : Target.t :=
  {| Target.resourceId := DbRow.resourceId row;
     Target.targetId := DbRow.targetId row;
     Target.ip := DbRow.ip row;
     Target.method := DbRow.method row;
     Target.port := DbRow.port row;
     Target.internalPort := DbRow.internalPort row;
     Target.enabled := DbRow.targetEnabled row;
     Target.site := {| Site.siteId := DbRow.siteId row;
                       Site.type := DbRow.siteType row;
                       Site.subnet := DbRow.subnet row;
                       Site.exitNodeId := DbRow.exitNodeId row;
                       Site.online := DbRow.siteOnline row |} |}.

(** [resourcesMap]: a [Map] keeps its keys in insertion order. *)
Abbreviation ResourcesMap := (list (option string * Resource.t)).

Fixpoint mapGet (k : option string) (m : ResourcesMap) : option Resource.t :=
  match m with
  | [] => None
  | (k', r) :: rest => if decide (k' = k) then Some r else mapGet k rest
  end.

Definition mapHas (k : option string) (m : ResourcesMap) : bool :=
  match mapGet k m with
  | Some _ => true
  | None => false
  end.

(** [resourcesMap.get(key).targets.push(target)]. *)
Fixpoint mapPush (k : option string) (tg : Target.t) (m : ResourcesMap) : ResourcesMap :=
  match m with
  | [] => []
  | (k', r) :: rest =>
      if decide (k' = k) then (k', Resource.pushTarget tg r) :: rest
      else (k', r) :: mapPush k tg rest
  end.

(** The body of [resourcesWithTargetsAndSites.forEach]. *)
Definition addRow (m : ResourcesMap) (row : DbRow.t) : ResourcesMap :=
  let k := key row in
  if mapHas k m then mapPush k (targetOf row) m
  else if validatePathRewriteConfig (DbRow.path row) (DbRow.pathMatchType row)
            (DbRow.rewritePath row) (DbRow.rewritePathType row)
       then mapPush k (targetOf row) (m ++ [(k, newGroup row)])
       else m.

Definition aggregate (rows : list DbRow.t) : ResourcesMap :=
  fold_left addRow rows [].

(** *** Availability *)

Definition siteOnline (t : Target.t) : bool := Site.online (Target.site t).

Definition siteTypeIs (t : Target.t) (ty : string) : bool :=
  match Site.type (Target.site t) with
  | Some s => String.eqb s ty
  | None => false
  end.

Definition anySitesOnline (targets : list Target.t) : bool :=
  existsb siteOnline targets.

(** The callback of [availableServers]. *)
Definition isAvailable (targets : list Target.t) (target : Target.t) : bool :=
  if negb (Target.enabled target) then false
  else if anySitesOnline targets && negb (siteOnline target) then false
  else if siteTypeIs target "local" || siteTypeIs target "wireguard" then
    Js.truthyS (Target.ip target) && Js.truthyZ (Target.port target)
    && Js.truthyS (Target.method target)
  else if siteTypeIs target "newt" then
    Js.truthyZ (Target.internalPort target) && Js.truthyS (Target.method target)
    && Js.truthyS (Site.subnet (Target.site target))
  else false.

Definition availableServers (targets : list Target.t) : list Target.t :=
  List.filter (isAvailable targets) targets.

Definition hasHealthyServers (targets : list Target.t) : bool :=
  (0 <? List.length (availableServers targets))%nat.

(** *** Maintenance decision *)

Definition modeIs (r : Resource.t) (mode : string) : bool :=
  match Resource.maintenanceModeType r with
  | Some m => String.eqb m mode
  | None => false
  end.

Definition showMaintenancePage (r : Resource.t) : bool :=
  if Resource.maintenanceModeEnabled r then
    if modeIs r "forced" then true
    else if modeIs r "automatic" then negb (hasHealthyServers (Resource.targets r))
    else false
  else false.

(** *** Names derived from the group key *)

Definition routerName (k : option string) (r : Resource.t) : string :=
  Js.tmplU k +:+ "-" +:+ Resource.name r +:+ "-router".
Definition serviceName (k : option string) (r : Resource.t) : string :=
  Js.tmplU k +:+ "-" +:+ Resource.name r +:+ "-service".
Definition transportName (k : option string) : string :=
  Js.tmplU k +:+ "-transport".
Definition headersMiddlewareName (k : option string) : string :=
  Js.tmplU k +:+ "-headers-middleware".
Definition maintenanceServiceName (k : option string) : string :=
  Js.tmplU k +:+ "-maintenance-service".
Definition maintenanceRouterName (k : option string) : string :=
  Js.tmplU k +:+ "-maintenance-router".
Definition redirectOf (router : string) : string := router +:+ "-redirect".
Definition rewriteMiddlewareName (k : option string) (r : Resource.t) : string :=
  "rewrite-r" +:+ pretty (Resource.resourceId r) +:+ "-" +:+ Js.tmplU k.

(** *** TLS policy *)

(** [wildCard] of the maintenance branch. *)
Definition maintenanceWildCard (r : Resource.t) (fullDomain : string) : string :=
  let domainParts := Js.split "."%char fullDomain in
  if Js.truthyS (Resource.subdomain r)
  then "*." +:+ Js.join "." (Js.slice1 domainParts)
  else fullDomain.

(** [wildCard] of the normal branch. *)
Definition wildCard (r : Resource.t) (fullDomain : string) : string :=
  let domainParts := Js.split "."%char fullDomain in
  let wildCard :=
    if (List.length domainParts <=? 2)%nat
    then "*." +:+ Js.join "." domainParts
    else "*." +:+ Js.join "." (Js.slice1 domainParts) in
  if negb (Js.truthyS (Resource.subdomain r)) then fullDomain else wildCard.

(** [a ?? b] on the wildcard preference. *)
Definition nullish (a b : option bool) : option bool :=
  match a with
  | Some _ => a
  | None => b
  end.

(** [tls] of the maintenance branch:
    [resource.domainCertResolver?.trim() || cert_resolver]. *)
Definition maintenanceTls (r : Resource.t) (fullDomain : string) : Tls.t :=
  {| Tls.certResolver :=
       match Resource.domainCertResolver r with
       | Some d => if Js.nonEmpty (Js.trim d) then Some (Js.trim d)
                   else Traefik.cert_resolver traefik
       | None => Traefik.cert_resolver traefik
       end;
     Tls.domains :=
       if Js.truthyB (nullish (Resource.preferWildcardCert r)
                              (Traefik.prefer_wildcard_cert traefik))
       then Some [maintenanceWildCard r fullDomain]
       else None |}.

Definition resolverName (r : Resource.t) : option string :=
  if Js.truthyS (Resource.domainCertResolver r)
  then Some (Js.trim (Js.orEmpty (Resource.domainCertResolver r)))
  else Traefik.cert_resolver traefik.

Definition preferWildcard (r : Resource.t) : option bool :=
  match Resource.preferWildcardCert r with
  | Some b => Some b
  | None => Traefik.prefer_wildcard_cert traefik
  end.

(** [tls] of the normal branch. *)
Definition normalTls (r : Resource.t) (fullDomain : string) : Tls.t :=
  {| Tls.certResolver := resolverName r;
     Tls.domains :=
       if Js.truthyB (preferWildcard r) then Some [wildCard r fullDomain]
       else None |}.

(** *** Rule and priority *)

Definition matchTypeIs (r : Resource.t) (ty : string) : bool :=
  match Resource.pathMatchType r with
  | Some m => String.eqb m ty
  | None => false
  end.

Definition hasPathSpec (r : Resource.t) : bool :=
  Js.truthyS (Resource.path r) && Js.truthyS (Resource.pathMatchType r).

Definition priority (r : Resource.t) : Z :=
  if negb (Resource.priority r =? 0)%Z && negb (Resource.priority r =? 100)%Z
  then Resource.priority r
  else
    if hasPathSpec r then
      let p := (100 + 10)%Z in
      let p := if matchTypeIs r "exact" then (p + 5)%Z
               else if matchTypeIs r "prefix" then (p + 3)%Z
               else if matchTypeIs r "regex" then (p + 2)%Z
               else p in
      if decide (Resource.path r = Some "/") then 1%Z else p
    else 100%Z.

Definition hostRule (fullDomain : string) : string :=
  "Host(`" +:+ fullDomain +:+ "`)".

Definition rule (r : Resource.t) (fullDomain : string) : string :=
  if hasPathSpec r then
    let raw := Js.orEmpty (Resource.path r) in
    let path := if Js.startsWithSlash raw then raw else "/" +:+ raw in
    if matchTypeIs r "exact" then
      hostRule fullDomain +:+ " && Path(`" +:+ path +:+ "`)"
    else if matchTypeIs r "prefix" then
      hostRule fullDomain +:+ " && PathPrefix(`" +:+ path +:+ "`)"
    else if matchTypeIs r "regex" then
      hostRule fullDomain +:+ " && PathRegexp(`" +:+ raw +:+ "`)"
    else hostRule fullDomain
  else hostRule fullDomain.

(** *** Backend servers of an HTTP service *)

(** The callback of the first [filter] under [loadBalancer.servers]. *)
Definition httpServerFilter (targets : list Target.t) (target : Target.t) : bool :=
  if negb (Target.enabled target) then false
  else if anySitesOnline targets && negb (siteOnline target) then false
  else if siteTypeIs target "local" || siteTypeIs target "wireguard" then
    if negb (Js.truthyS (Target.ip target)) || negb (Js.truthyZ (Target.port target))
       || negb (Js.truthyS (Target.method target))
    then false else true
  else if siteTypeIs target "newt" then
    if negb (Js.truthyZ (Target.internalPort target))
       || negb (Js.truthyS (Target.method target))
       || negb (Js.truthyS (Site.subnet (Target.site target)))
    then false else true
  else true.

(** [target.site.subnet!.split("/")[0]]. The non-null assertion is backed by
    the filter, which keeps a newt target only with a truthy subnet. *)
Definition subnetHost (target : Target.t) : string :=
  List.hd "" (Js.split "/"%char (Js.orEmpty (Site.subnet (Target.site target)))).

(** The callback of [map]: a target of another site type maps to [undefined]. *)
Definition httpServerOf (target : Target.t) : option Server :=
  if siteTypeIs target "local" || siteTypeIs target "wireguard" then
    Some (Url (Js.tmplS (Target.method target) +:+ "://"
               +:+ Js.tmplS (Target.ip target) +:+ ":"
               +:+ Js.tmplZ (Target.port target)))
  else if siteTypeIs target "newt" then
    Some (Url (Js.tmplS (Target.method target) +:+ "://"
               +:+ subnetHost target +:+ ":"
               +:+ Js.tmplZ (Target.internalPort target)))
  else None.

(** [t && v && t.url === v.url]. *)
Definition sameUrl (t v : option Server) : bool :=
  match t, v with
  | Some t, Some v => bool_decide (serverUrl t = serverUrl v)
  | _, _ => false
  end.

(** The last [filter]: keep [v] at index [i] when the first entry with its
    url sits at [i]. *)
Definition dedupe (a : list (option Server)) : list (option Server) :=
  Js.filterIdx
    (fun v i => match Js.findIndex (fun t => sameUrl t v) a with
                | Some j => (j =? i)%nat
                | None => false
                end) a.

Definition httpServers (targets : list Target.t) : list (option Server) :=
  dedupe (List.map httpServerOf (List.filter (httpServerFilter targets) targets)).

(** *** Writes into one protocol family *)

Definition routersOf (f : Family.t) : gmap string Router.t :=
  default ∅ (Family.routers f).
Definition servicesOf (f : Family.t) : gmap string Service.t :=
  default ∅ (Family.services f).
Definition middlewaresOf (f : Family.t) : gmap string Middleware :=
  default ∅ (Family.middlewares f).
Definition serversTransportsOf (f : Family.t) : gmap string ServersTransport.t :=
  default ∅ (Family.serversTransports f).

Definition setRouter (n : string) (v : Router.t) (f : Family.t) : Family.t :=
  Family.withRouters (<[n := v]> (routersOf f)) f.
Definition setService (n : string) (v : Service.t) (f : Family.t) : Family.t :=
  Family.withServices (<[n := v]> (servicesOf f)) f.
Definition setMiddleware (n : string) (v : Middleware) (f : Family.t) : Family.t :=
  Family.withMiddlewares (<[n := v]> (middlewaresOf f)) f.
Definition setServersTransport (n : string) (v : ServersTransport.t) (f : Family.t) : Family.t :=
  Family.withServersTransports (<[n := v]> (serversTransportsOf f)) f.

(** [if (!http.routers) http.routers = {}], and the same for services. *)
Definition initRoutersServices (f : Family.t) : Family.t :=
  Family.withServices (servicesOf f) (Family.withRouters (routersOf f) f).

(** *** The maintenance branch *)

Definition maintenanceUrl : string :=
  let maintenancePort :=
    if Js.truthyZ (Traefik.maintenance_port traefik)
    then Js.tmplZ (Traefik.maintenance_port traefik) else pretty 8888%Z in
  let maintenanceHost :=
    if Js.truthyS (Traefik.maintenance_host traefik)
    then Js.orEmpty (Traefik.maintenance_host traefik) else "pangolin" in
  "http://" +:+ maintenanceHost +:+ ":" +:+ maintenancePort.

Definition maintenanceService : Service.t :=
  {| Service.servers := [Some (Url maintenanceUrl)];
     Service.passHostHeader := Some true;
     Service.sticky := None;
     Service.serversTransport := None |}.

Definition entryPointOf (r : Resource.t) : string :=
  if Resource.ssl r then Traefik.https_entrypoint traefik
  else Traefik.http_entrypoint traefik.

Definition maintenanceRouter (k : option string) (r : Resource.t) (fullDomain : string) : Router.t :=
  {| Router.entryPoints := [entryPointOf r];
     Router.middlewares := None;
     Router.service := maintenanceServiceName k;
     Router.rule := Some (hostRule fullDomain);
     Router.priority := Some 2000%Z;
     Router.tls := if Resource.ssl r then Some (maintenanceTls r fullDomain) else None |}.

Definition maintenanceRedirect (k : option string) (fullDomain : string) : Router.t :=
  {| Router.entryPoints := [Traefik.http_entrypoint traefik];
     Router.middlewares := Some [redirectHttpsMiddlewareName];
     Router.service := maintenanceServiceName k;
     Router.rule := Some (hostRule fullDomain);
     Router.priority := Some 2000%Z;
     Router.tls := None |}.

Definition emitMaintenance (k : option string) (r : Resource.t) (fullDomain : string)
    (f : Family.t) : Family.t :=
  let f := setService (maintenanceServiceName k) maintenanceService f in
  let f := setRouter (maintenanceRouterName k) (maintenanceRouter k r fullDomain) f in
  if Resource.ssl r
  then setRouter (redirectOf (maintenanceRouterName k)) (maintenanceRedirect k fullDomain) f
  else f.

(** *** The normal branch *)

(** The path-rewrite block: the family and the router middleware chain after
    it. A throwing collaborator leaves both as they were. *)
Definition rewriteStep (k : option string) (r : Resource.t)
    (st : Family.t * list string) : Family.t * list string :=
  match Resource.rewritePath r, Resource.path r with
  | Some rewritePath, Some path =>
      if Js.truthyS (Resource.pathMatchType r) && Js.truthyS (Resource.rewritePathType r)
      then
        match createPathRewriteMiddleware (rewriteMiddlewareName k r) path
                (Js.orEmpty (Resource.pathMatchType r)) rewritePath
                (Js.orEmpty (Resource.rewritePathType r)) with
        | Some res =>
            (Family.withMiddlewares
               (RewriteResult.middlewares res ∪ middlewaresOf st.1) st.1,
             st.2 ++ match RewriteResult.chain res with
                     | Some chain => chain
                     | None => [rewriteMiddlewareName k r]
                     end)
        | None => st
        end
      else st
  | _, _ => st
  end.

(** [headersObj]: later entries of the parsed array win, the host header
    override is written last. *)
Definition headersObj (r : Resource.t) : gmap string string :=
  let headersArr :=
    match Resource.headers r with
    | Some h => if Js.nonEmpty h then default [] (parseHeaders h) else []
    | None => []
    end in
  let obj := fold_left (fun o (h : string * string) => <[h.1 := h.2]> o) headersArr ∅ in
  if Js.truthyS (Resource.setHostHeader r)
  then <["Host" := Js.orEmpty (Resource.setHostHeader r)]> obj
  else obj.

Definition headersStep (k : option string) (r : Resource.t)
    (st : Family.t * list string) : Family.t * list string :=
  if Js.truthyS (Resource.headers r) || Js.truthyS (Resource.setHostHeader r) then
    if (0 <? size (headersObj r))%nat then
      (setMiddleware (headersMiddlewareName k) (CustomRequestHeaders (headersObj r)) st.1,
       st.2 ++ [headersMiddlewareName k])
    else st
  else st.

Definition normalRouter (k : option string) (r : Resource.t) (fullDomain : string)
    (routerMiddlewares : list string) : Router.t :=
  {| Router.entryPoints := [entryPointOf r];
     Router.middlewares := Some routerMiddlewares;
     Router.service := serviceName k r;
     Router.rule := Some (rule r fullDomain);
     Router.priority := Some (priority r);
     Router.tls := if Resource.ssl r then Some (normalTls r fullDomain) else None |}.

Definition normalRedirect (k : option string) (r : Resource.t) (fullDomain : string) : Router.t :=
  {| Router.entryPoints := [Traefik.http_entrypoint traefik];
     Router.middlewares := Some [redirectHttpsMiddlewareName];
     Router.service := serviceName k r;
     Router.rule := Some (rule r fullDomain);
     Router.priority := Some (priority r);
     Router.tls := None |}.

Definition normalService (k : option string) (r : Resource.t) : Service.t :=
  {| Service.servers := httpServers (Resource.targets r);
     Service.passHostHeader := None;
     Service.sticky :=
       if Resource.stickySession r
       then Some (StickyCookie "p_sticky" (Resource.ssl r) true) else None;
     Service.serversTransport :=
       if Js.truthyS (Resource.tlsServerName r) then Some (transportName k) else None |}.

Definition emitNormal (k : option string) (r : Resource.t) (fullDomain : string)
    (f : Family.t) : Family.t :=
  let routerMiddlewares :=
    badgerMiddlewareName :: default [] (Traefik.additional_middlewares traefik) in
  let st := headersStep k r (rewriteStep k r (f, routerMiddlewares)) in
  let f := setRouter (routerName k r) (normalRouter k r fullDomain st.2) st.1 in
  let f := if Resource.ssl r
           then setRouter (redirectOf (routerName k r)) (normalRedirect k r fullDomain) f
           else f in
  let f := setService (serviceName k r) (normalService k r) f in
  if Js.truthyS (Resource.tlsServerName r)
  then setServersTransport (transportName k)
         {| ServersTransport.serverName := Js.orEmpty (Resource.tlsServerName r);
            ServersTransport.insecureSkipVerify := true |} f
  else f.

(** The HTTP branch of the loop body, past the domain guard. *)
Definition emitHttp (k : option string) (r : Resource.t) (fullDomain : string)
    (f : Family.t) : Family.t :=
  let f := initRoutersServices f in
  if showMaintenancePage r then emitMaintenance k r fullDomain f
  else emitNormal k r fullDomain f.

(** *** The non-HTTP (TCP/UDP) branch *)

(** The callback of [filter] in the non-HTTP branch: no method is asked for. *)
Definition rawServerFilter (targets : list Target.t) (target : Target.t) : bool :=
  if negb (Target.enabled target) then false
  else if anySitesOnline targets && negb (siteOnline target) then false
  else if siteTypeIs target "local" || siteTypeIs target "wireguard" then
    if negb (Js.truthyS (Target.ip target)) || negb (Js.truthyZ (Target.port target))
    then false else true
  else if siteTypeIs target "newt" then
    if negb (Js.truthyZ (Target.internalPort target))
       || negb (Js.truthyS (Site.subnet (Target.site target)))
    then false else true
  else true.

Definition rawServerOf (target : Target.t) : option Server :=
  if siteTypeIs target "local" || siteTypeIs target "wireguard" then
    Some (Address (Js.tmplS (Target.ip target) +:+ ":" +:+ Js.tmplZ (Target.port target)))
  else if siteTypeIs target "newt" then
    Some (Address (subnetHost target +:+ ":" +:+ Js.tmplZ (Target.internalPort target)))
  else None.

(** [loadBalancer.servers] of the non-HTTP branch: [filter] then [map]. *)
Definition rawServers (targets : list Target.t) : list (option Server) :=
  List.map rawServerOf (List.filter (rawServerFilter targets) targets).

Definition rawRouter (k : option string) (r : Resource.t) (protocol : string) : Router.t :=
  {| Router.entryPoints := [protocol +:+ "-" +:+ Js.tmplZ (Resource.proxyPort r)];
     Router.middlewares := None;
     Router.service := serviceName k r;
     Router.rule := if String.eqb protocol "tcp" then Some "HostSNI(`*`)" else None;
     Router.priority := None;
     Router.tls := None |}.

Definition rawService (r : Resource.t) (protocol : string) : Service.t :=
  {| Service.servers := rawServers (Resource.targets r);
     Service.passHostHeader := None;
     Service.sticky :=
       if Resource.stickySession r then Some (StickyIpStrategy 0 true) else None;
     Service.serversTransport :=
       if Resource.proxyProtocol r && String.eqb protocol "tcp"
       then Some (Js.tmplU (Traefik.pp_transport_prefix traefik)
                  +:+ pretty (if (Resource.proxyProtocolVersion r =? 0)%Z then 1%Z
                              else Resource.proxyProtocolVersion r)
                  +:+ "@file")
       else None |}.

(** Property names every object inherits and that survive [toLowerCase]:
    [config_output[protocol]] is then a truthy value without [routers]. *)
Definition inheritedKey (protocol : string) : bool :=
  String.eqb protocol "constructor" || String.eqb protocol "__proto__".

Definition emitRaw (k : option string) (r : Resource.t) (out : ConfigOutput)
    : Js.outcome ConfigOutput :=
  if negb (Js.truthyB (Resource.enableProxy r)) || negb (Js.truthyZ (Resource.proxyPort r))
  then mret out
  else
    let protocol := Js.toLowerCase (Resource.protocol r) in
    if inheritedKey protocol
    then Js.Thrown "cannot set properties of undefined"
    else
      let out :=
        match out !! protocol with
        | Some _ => out
        | None => <[protocol := Family.mk (Some ∅) (Some ∅) None None]> out
        end in
      match out !! protocol with
      | None => Js.Thrown "cannot read properties of undefined"
      | Some f =>
          match Family.routers f, Family.services f with
          | Some _, Some _ =>
              mret (<[protocol :=
                        setService (serviceName k r) (rawService r protocol)
                          (setRouter (routerName k r) (rawRouter k r protocol) f)]> out)
          | _, _ => Js.Thrown "cannot set properties of undefined"
          end
      end.

(** *** The loop over the route groups *)

(** One iteration of [for (const [key, resource] of resourcesMap.entries())]. *)
Definition emitGroup (k : option string) (r : Resource.t) (out : ConfigOutput)
    : Js.outcome ConfigOutput :=
  if negb (Resource.enabled r) then mret out
  else if Resource.http r then
    match Resource.fullDomain r with
    | Some fullDomain =>
        if negb (Js.truthyS (Resource.domainId r)) || negb (Js.nonEmpty fullDomain)
        then mret out
        else
          match out !! "http" with
          | Some f => mret (<["http" := emitHttp k r fullDomain f]> out)
          | None => Js.Thrown "cannot read properties of undefined"
          end
    | None => mret out
    end
  else emitRaw k r out.

Fixpoint emitAll (groups : ResourcesMap) (out : ConfigOutput) : Js.outcome ConfigOutput :=
  match groups with
  | [] => mret out
  | (k, r) :: rest => out' ← emitGroup k r out; emitAll rest out'
  end.

(** [config_output] as first created. *)
Definition initialOutput : ConfigOutput :=
  {[ "http" := Family.mk None None
                 (Some {[ redirectHttpsMiddlewareName := RedirectScheme "https" ]})
                 None ]}.

(** [getTraefikConfig], from the rows the bulk query returned. *)
Definition getTraefikConfig (rows : list DbRow.t) : Js.outcome ConfigOutput :=
  let resourcesMap := aggregate rows in
  if (List.length resourcesMap =? 0)%nat then mret ∅
  else emitAll resourcesMap initialOutput.

End Synthesizer.

(** ** The maintenance page *)

(** The double quote character. *)
Definition dqChar : ascii := ascii_of_nat 34.
Definition dq : string := String dqChar EmptyString.

(** The line feed of the source text. *)
Definition nl : string := String (ascii_of_nat 10) EmptyString.

(** Source lines of a template, joined as they stand in the file. *)
Definition lines (l : list string) : string := String.concat nl l.

(** [escapeHtml] replaces every ampersand, angle bracket, double quote and
    apostrophe by its entry in [map]; this is the replacement of one
    character, any other character staying as it is. *)
Definition escapeChar (c : ascii) : string :=
  if Ascii.eqb c "&"%char then "&amp;"
  else if Ascii.eqb c "<"%char then "&lt;"
  else if Ascii.eqb c ">"%char then "&gt;"
  else if Ascii.eqb c dqChar then "&quot;"
  else if Ascii.eqb c "'"%char then "&#039;"
  else String c EmptyString.

Fixpoint escapeHtml (text : string) : string :=
  match text with
  | EmptyString => EmptyString
  | String c rest => escapeChar c +:+ escapeHtml rest
  end.

(** The template up to the first [${safeTitle}]. *)
Definition pageHead : string :=
  lines
    ["<!DOCTYPE html>";
     "<html lang=" +:+ dq +:+ "en" +:+ dq +:+ ">";
     "<head>";
     "    <meta charset=" +:+ dq +:+ "UTF-8" +:+ dq +:+ ">";
     "    <meta name=" +:+ dq +:+ "viewport" +:+ dq +:+ " content=" +:+ dq +:+ "width=device-width, initial-scale=1.0" +:+ dq +:+ ">";
     "    <meta name=" +:+ dq +:+ "robots" +:+ dq +:+ " content=" +:+ dq +:+ "noindex, nofollow" +:+ dq +:+ ">";
     "    <title>"].

(** From the title to the heading. *)
Definition pageStyle : string :=
  lines
    ["</title>";
     "    <style>";
     "        * { margin: 0; padding: 0; box-sizing: border-box; }";
     "        body {";
     "            font-family: -apple-system, BlinkMacSystemFont, 'Segoe UI', Roboto, 'Helvetica Neue', Arial, sans-serif;";
     "            display: flex;";
     "            justify-content: center;";
     "            align-items: center;";
     "            min-height: 100vh;";
     "            background: linear-gradient(135deg, #667eea 0%, #764ba2 100%);";
     "            color: #fff;";
     "            padding: 1rem;";
     "            line-height: 1.6;";
     "        }";
     "        .container {";
     "            text-align: center;";
     "            padding: 3rem 2rem;";
     "            max-width: 600px;";
     "            background: rgba(255, 255, 255, 0.1);";
     "            backdrop-filter: blur(10px);";
     "            border-radius: 20px;";
     "            box-shadow: 0 8px 32px rgba(0, 0, 0, 0.1);";
     "            border: 1px solid rgba(255, 255, 255, 0.2);";
     "        }";
     "        .icon {";
     "            font-size: 4rem;";
     "            margin-bottom: 1.5rem;";
     "            animation: pulse 2s ease-in-out infinite;";
     "        }";
     "        @keyframes pulse {";
     "            0%, 100% { transform: scale(1); }";
     "            50% { transform: scale(1.1); }";
     "        }";
     "        h1 {";
     "            font-size: 2.5rem;";
     "            margin-bottom: 1rem;";
     "            font-weight: 700;";
     "            line-height: 1.2;";
     "        }";
     "        .message {";
     "            font-size: 1.2rem;";
     "            margin-bottom: 1rem;";
     "            opacity: 0.95;";
     "        }";
     "        .time {";
     "            margin-top: 1.5rem;";
     "            padding: 1rem;";
     "            background: rgba(255, 255, 255, 0.15);";
     "            border-radius: 10px;";
     "            font-size: 1rem;";
     "            font-weight: 500;";
     "        }";
     "        @media (max-width: 640px) {";
     "            h1 { font-size: 2rem; }";
     "            .message { font-size: 1rem; }";
     "            .container { padding: 2rem 1.5rem; }";
     "        }";
     "    </style>";
     "</head>";
     "<body>";
     "    <div class=" +:+ dq +:+ "container" +:+ dq +:+ ">";
     "        <div class=" +:+ dq +:+ "icon" +:+ dq +:+ ">🔧</div>";
     "        <h1>"].

(** Between the heading and [${safeMessage}]. *)
Definition pageHeading : string :=
  lines
    ["</h1>";
     "        <p class=" +:+ dq +:+ "message" +:+ dq +:+ ">"].

(** Between the message and the estimated-time expression. *)
Definition pageMessageEnd : string :=
  lines
    ["</p>";
     "        "].

(** The inner template up to [${safeEstimatedTime}]. *)
Definition timeOpen : string :=
  lines
    ["<div class=" +:+ dq +:+ "time" +:+ dq +:+ ">";
     "                <strong>Estimated completion:</strong><br>";
     "                "].

(** The rest of the inner template. *)
Definition timeClose : string :=
  lines
    ["";
     "            </div>"].

(** The template after the estimated-time expression. *)
Definition pageEnd : string :=
  lines
    ["";
     "    </div>";
     "</body>";
     "</html>"].

(** [generateMaintenanceHTML]: a template literal is the concatenation of
    its text chunks and the values of its expressions. *)
Definition generateMaintenanceHTML (title message estimatedTime : option string)
    : string :=
  let safeTitle :=
    escapeHtml (if Js.truthyS title then Js.orEmpty title
                else "Service Temporarily Unavailable") in
  let safeMessage :=
    escapeHtml (if Js.truthyS message then Js.orEmpty message
                else "We are currently experiencing technical difficulties. Please check back soon.") in
  let safeEstimatedTime :=
    if Js.truthyS estimatedTime
    then Some (escapeHtml (Js.orEmpty estimatedTime)) else None in
  pageHead +:+ safeTitle +:+ pageStyle +:+ safeTitle +:+ pageHeading
  +:+ safeMessage +:+ pageMessageEnd
  +:+ (if Js.truthyS safeEstimatedTime
       then timeOpen +:+ Js.orEmpty safeEstimatedTime +:+ timeClose
       else "")
  +:+ pageEnd.

(** ** Sample inputs

    Concrete collaborators, configuration, targets, groups and rows on which
    the synthesizer is run in the examples below. *)

Module Sample.

Definition keepChar (c : ascii) : bool :=
  let n := nat_of_ascii c in
  ((48 <=? n) && (n <=? 57) || (65 <=? n) && (n <=? 90)
   || (97 <=? n) && (n <=? 122) || (n =? 45))%nat.

Fixpoint dashOthers (s : string) : string :=
  match s with
  | EmptyString => EmptyString
  | String c rest => String (if keepChar c then c else "-"%char) (dashOthers rest)
  end.

(** A stand-in for the [sanitize] collaborator: a falsy input gives
    [undefined], any character outside letters, digits and the dash becomes
    a dash. *)
Definition sanitize (input : option string) : option string :=
  match input with
  | Some (String c rest) => Some (dashOthers (String c rest))
  | _ => None
  end.

(** A validator that accepts every combination. *)
Definition acceptAll (_ _ _ _ : option string) : bool := true.

(** A validator that rejects every combination. *)
Definition rejectAll (_ _ _ _ : option string) : bool := false.

(** A rewrite collaborator that returns one middleware under the given name. *)
Definition rewriteOne (name _ _ rewritePath _ : string) : option RewriteResult.t :=
  Some {| RewriteResult.middlewares := {[ name := PathRewrite rewritePath ]};
          RewriteResult.chain := None |}.

(** A header parser that fails on every input. *)
Definition noHeaders (_ : string) : option (list (string * string)) := None.

Definition traefik (preferWildcard : option bool) : Traefik.t :=
  {| Traefik.http_entrypoint := "web";
     Traefik.https_entrypoint := "websecure";
     Traefik.cert_resolver := Some "letsencrypt";
     Traefik.prefer_wildcard_cert := preferWildcard;
     Traefik.additional_middlewares := None;
     Traefik.maintenance_port := None;
     Traefik.maintenance_host := None;
     Traefik.pp_transport_prefix := Some "pp-transport-v" |}.

Definition site (ty : string) (online : bool) : Site.t :=
  {| Site.siteId := 1;
     Site.type := Some ty;
     Site.subnet := Some "100.90.128.0/24";
     Site.exitNodeId := Some 1;
     Site.online := online |}.

(** An enabled target with every field filled in. *)
Definition target (targetId : Z) (ty : string) (online : bool) (ip : string) (port : Z)
    : Target.t :=
  {| Target.resourceId := 1;
     Target.targetId := targetId;
     Target.ip := Some ip;
     Target.method := Some "http";
     Target.port := Some port;
     Target.internalPort := Some 40000;
     Target.enabled := true;
     Target.site := site ty online |}.

(** An enabled HTTP group on a provisioned domain. *)
Definition group (fullDomain : string) (subdomain resolver : option string) (ssl : bool)
    (maintenance : bool) (mode : option string) (priority : Z)
    (path pathMatchType : option string) (targets : list Target.t) : Resource.t :=
  {| Resource.resourceId := 1;
     Resource.name := "app";
     Resource.fullDomain := Some fullDomain;
     Resource.ssl := ssl;
     Resource.http := true;
     Resource.proxyPort := None;
     Resource.protocol := "tcp";
     Resource.subdomain := subdomain;
     Resource.domainId := Some "domain1";
     Resource.enabled := true;
     Resource.stickySession := false;
     Resource.tlsServerName := None;
     Resource.setHostHeader := None;
     Resource.enableProxy := Some true;
     Resource.targets := targets;
     Resource.headers := None;
     Resource.proxyProtocol := false;
     Resource.proxyProtocolVersion := 1;
     Resource.path := path;
     Resource.pathMatchType := pathMatchType;
     Resource.rewritePath := None;
     Resource.rewritePathType := None;
     Resource.priority := priority;
     Resource.domainCertResolver := resolver;
     Resource.maintenanceModeEnabled := maintenance;
     Resource.maintenanceModeType := mode;
     Resource.maintenanceTitle := None;
     Resource.maintenanceMessage := None;
     Resource.maintenanceEstimatedTime := None;
     Resource.preferWildcardCert := None |}.

Definition httpGroup (fullDomain : string) (subdomain : option string) (ssl : bool)
    (maintenance : bool) (mode : option string) (priority : Z)
    (path pathMatchType : option string) (targets : list Target.t) : Resource.t :=
  group fullDomain subdomain None ssl maintenance mode priority path pathMatchType targets.

(** An SSL group in forced maintenance, to compare the two TLS blocks. *)
Definition tlsGroup (fullDomain : string) (subdomain resolver : option string)
    : Resource.t :=
  group fullDomain subdomain resolver true true (Some "forced") 100 None None [].

(** A group with a path spec and nothing else of note. *)
Definition pathGroup (priority : Z) (path pathMatchType : option string) : Resource.t :=
  httpGroup "example.com" None false false None priority path pathMatchType [].

(** A row of resource 1, [example.com], with one enabled local target on an
    online site; [http], the domain id, the protocol, the target id and the
    path configuration vary. *)
Definition row (http : bool) (domainId : option string) (protocol : string)
    (targetId : Z) (path pathMatchType rewritePath rewritePathType : option string)
    : DbRow.t :=
  {| DbRow.resourceId := 1;
     DbRow.resourceName := Some "app";
     DbRow.fullDomain := Some "example.com";
     DbRow.ssl := true;
     DbRow.http := http;
     DbRow.proxyPort := Some 5432;
     DbRow.protocol := protocol;
     DbRow.subdomain := None;
     DbRow.domainId := domainId;
     DbRow.enabled := true;
     DbRow.stickySession := false;
     DbRow.tlsServerName := None;
     DbRow.setHostHeader := None;
     DbRow.enableProxy := Some true;
     DbRow.headers := None;
     DbRow.proxyProtocol := false;
     DbRow.proxyProtocolVersion := None;
     DbRow.maintenanceModeEnabled := false;
     DbRow.maintenanceModeType := None;
     DbRow.maintenanceTitle := None;
     DbRow.maintenanceMessage := None;
     DbRow.maintenanceEstimatedTime := None;
     DbRow.targetId := targetId;
     DbRow.targetEnabled := true;
     DbRow.ip := Some "10.0.0.5";
     DbRow.method := Some "http";
     DbRow.port := Some 8080;
     DbRow.internalPort := None;
     DbRow.hcHealth := None;
     DbRow.path := path;
     DbRow.pathMatchType := pathMatchType;
     DbRow.rewritePath := rewritePath;
     DbRow.rewritePathType := rewritePathType;
     DbRow.priority := Some 100;
     DbRow.siteId := 1;
     DbRow.siteType := Some "local";
     DbRow.siteOnline := true;
     DbRow.subnet := None;
     DbRow.exitNodeId := Some 1;
     DbRow.domainCertResolver := None |}.

(** An HTTP row on a provisioned domain. *)
Definition httpRow (targetId : Z)
    (path pathMatchType rewritePath rewritePathType : option string) : DbRow.t :=
  row true (Some "domain1") "tcp" targetId path pathMatchType rewritePath rewritePathType.

(** A row of the same query for a resource in maintenance. *)
Definition inMaintenance (mode : option string) (r : DbRow.t) : DbRow.t :=
  {| DbRow.resourceId := DbRow.resourceId r;
     DbRow.resourceName := DbRow.resourceName r;
     DbRow.fullDomain := DbRow.fullDomain r;
     DbRow.ssl := DbRow.ssl r;
     DbRow.http := DbRow.http r;
     DbRow.proxyPort := DbRow.proxyPort r;
     DbRow.protocol := DbRow.protocol r;
     DbRow.subdomain := DbRow.subdomain r;
     DbRow.domainId := DbRow.domainId r;
     DbRow.enabled := DbRow.enabled r;
     DbRow.stickySession := DbRow.stickySession r;
     DbRow.tlsServerName := DbRow.tlsServerName r;
     DbRow.setHostHeader := DbRow.setHostHeader r;
     DbRow.enableProxy := DbRow.enableProxy r;
     DbRow.headers := DbRow.headers r;
     DbRow.proxyProtocol := DbRow.proxyProtocol r;
     DbRow.proxyProtocolVersion := DbRow.proxyProtocolVersion r;
     DbRow.maintenanceModeEnabled := true;
     DbRow.maintenanceModeType := mode;
     DbRow.maintenanceTitle := DbRow.maintenanceTitle r;
     DbRow.maintenanceMessage := DbRow.maintenanceMessage r;
     DbRow.maintenanceEstimatedTime := DbRow.maintenanceEstimatedTime r;
     DbRow.targetId := DbRow.targetId r;
     DbRow.targetEnabled := DbRow.targetEnabled r;
     DbRow.ip := DbRow.ip r;
     DbRow.method := DbRow.method r;
     DbRow.port := DbRow.port r;
     DbRow.internalPort := DbRow.internalPort r;
     DbRow.hcHealth := DbRow.hcHealth r;
     DbRow.path := DbRow.path r;
     DbRow.pathMatchType := DbRow.pathMatchType r;
     DbRow.rewritePath := DbRow.rewritePath r;
     DbRow.rewritePathType := DbRow.rewritePathType r;
     DbRow.priority := DbRow.priority r;
     DbRow.siteId := DbRow.siteId r;
     DbRow.siteType := DbRow.siteType r;
     DbRow.siteOnline := DbRow.siteOnline r;
     DbRow.subnet := DbRow.subnet r;
     DbRow.exitNodeId := DbRow.exitNodeId r;
     DbRow.domainCertResolver := DbRow.domainCertResolver r |}.

(** The http family of a fresh document. *)
Definition freshHttp : Family.t :=
  Family.mk None None
    (Some {[ redirectHttpsMiddlewareName := RedirectScheme "https" ]}) None.


End Sample.

(** ** Vocabulary of the statements *)

(** No override is in force: the stored priority is the neutral 100, or 0,
    which the truthiness guard treats the same way. *)
Definition neutralPriority (r : Resource.t) : Prop :=
  Resource.priority r = 100 \/ Resource.priority r = 0.

(** The match-type bonus. *)
Definition matchBonus (m : option string) : Z :=
  if decide (m = Some "exact") then 5
  else if decide (m = Some "prefix") then 3
  else if decide (m = Some "regex") then 2
  else 0.


(** The site types for which the resolver knows an endpoint format. *)
Definition knownSiteType (t : Target.t) : bool :=
  siteTypeIs t "local" || siteTypeIs t "wireguard" || siteTypeIs t "newt".


(** First-seen deduplication, written as a recursion over the list: an entry
    is kept when it is defined and no entry before it has its url. [seen]
    holds the entries already passed. *)
Fixpoint keepFirst (seen a : list (option Server)) : list (option Server) :=
  match a with
  | [] => []
  | v :: rest =>
      if match v with
         | Some _ => negb (existsb (fun t => sameUrl t v) seen)
         | None => false
         end
      then v :: keepFirst (seen ++ [v]) rest
      else keepFirst (seen ++ [v]) rest
  end.

(** The test [dedupe] hands to [filter]. *)
Definition firstAt (a : list (option Server)) (v : option Server) (i : nat) : bool :=
  match Js.findIndex (fun t => sameUrl t v) a with
  | Some j => (j =? i)%nat
  | None => false
  end.

(** The path/rewrite configuration of a row. *)
Definition pathConfig (row : DbRow.t)
    : option string * option string * option string * option string :=
  (DbRow.path row, DbRow.pathMatchType row, DbRow.rewritePath row, DbRow.rewritePathType row).

(** The validator's verdict on a row. *)
Definition validRow
    (validatePathRewriteConfig :
       option string -> option string -> option string -> option string -> bool)
    (row : DbRow.t) : bool :=
  validatePathRewriteConfig (DbRow.path row) (DbRow.pathMatchType row)
    (DbRow.rewritePath row) (DbRow.rewritePathType row).

(** A family that defines the HTTPS redirect middleware. *)
Definition definesRedirect (f : Family.t) : Prop :=
  exists m, Family.middlewares f = Some m
            /\ is_Some (m !! redirectHttpsMiddlewareName).

(** A document with an [http] section that defines the redirect. *)
Definition hasRedirect (out : ConfigOutput) : Prop :=
  exists f, out !! "http" = Some f /\ definesRedirect f.

(** Every other family of the document has its two maps. *)
Definition rawFamiliesReady (out : ConfigOutput) : Prop :=
  forall p f, p <> "http" -> out !! p = Some f ->
              is_Some (Family.routers f) /\ is_Some (Family.services f).




(** How often a character occurs in a string. *)
Fixpoint countChar (c : ascii) (s : string) : nat :=
  match s with
  | EmptyString => O
  | String d rest => ((if Ascii.eqb d c then 1 else 0) + countChar c rest)%nat
  end.

(** The rows that carry the key [k], in the order of the query. *)
Definition rowsOfKey (sanitize : option string -> option string)
    (k : option string) (rows : list DbRow.t) : list DbRow.t :=
  List.filter (fun row => bool_decide (key sanitize row = k)) rows.

(** The rows from the first one the validator accepts. *)
Fixpoint fromFirstAccepted
    (validatePathRewriteConfig :
       option string -> option string -> option string -> option string -> bool)
    (rows : list DbRow.t) : list DbRow.t :=
  match rows with
  | [] => []
  | row :: rest =>
      if validRow validatePathRewriteConfig row then row :: rest
      else fromFirstAccepted validatePathRewriteConfig rest
  end.

(** The group a run of rows makes: the scalar fields of its first row, the
    targets of all of them. *)
Definition groupOfRows (sanitize : option string -> option string)
    (rows : list DbRow.t) : option Resource.t :=
  match rows with
  | [] => None
  | row :: _ =>
      Some (Resource.withTargets (List.map targetOf rows) (newGroup sanitize row))
  end.

(** Every router of a family names a service the family defines. *)
Definition servicesResolve (f : Family.t) : Prop :=
  forall n R, routersOf f !! n = Some R ->
              is_Some (servicesOf f !! Router.service R).

(** The same for every family of a document. *)
Definition documentResolves (out : ConfigOutput) : Prop :=
  forall p f, out !! p = Some f -> servicesResolve f.

(** The guards of the loop body that make it [continue] before any write. *)
Definition skipsGroup (r : Resource.t) : bool :=
  negb (Resource.enabled r)
  || (if Resource.http r
      then negb (Js.truthyS (Resource.domainId r))
           || negb (Js.truthyS (Resource.fullDomain r))
      else negb (Js.truthyB (Resource.enableProxy r))
           || negb (Js.truthyZ (Resource.proxyPort r))).

(** The same guards read off a row of the query. *)
Definition skipsRow (row : DbRow.t) : bool :=
  negb (DbRow.enabled row)
  || (if DbRow.http row
      then negb (Js.truthyS (DbRow.domainId row))
           || negb (Js.truthyS (DbRow.fullDomain row))
      else negb (Js.truthyB (DbRow.enableProxy row))
           || negb (Js.truthyZ (DbRow.proxyPort row))).

(** ** Further sample inputs *)

Module Fixture.

(** A header parser that reads every text as one fixed list, with a [Host]
    entry in it. *)
Definition twoHeaders (_ : string) : option (list (string * string)) :=
  Some [("Host", "origin.internal"); ("X-Env", "prod")].

(** An enabled HTTP group on [example.com] with a prefix path spec; the
    rewrite path, the serialized headers, the host-header override and the
    TLS server name vary. *)
Definition webGroup (rewritePath headers setHostHeader tlsServerName : option string)
    : Resource.t :=
  {| Resource.resourceId := 1;
     Resource.name := "app";
     Resource.fullDomain := Some "example.com";
     Resource.ssl := true;
     Resource.http := true;
     Resource.proxyPort := None;
     Resource.protocol := "tcp";
     Resource.subdomain := None;
     Resource.domainId := Some "domain1";
     Resource.enabled := true;
     Resource.stickySession := false;
     Resource.tlsServerName := tlsServerName;
     Resource.setHostHeader := setHostHeader;
     Resource.enableProxy := Some true;
     Resource.targets := [Sample.target 1 "local" true "10.0.0.5" 8080];
     Resource.headers := headers;
     Resource.proxyProtocol := false;
     Resource.proxyProtocolVersion := 1;
     Resource.path := Some "/api";
     Resource.pathMatchType := Some "prefix";
     Resource.rewritePath := rewritePath;
     Resource.rewritePathType := option_map (fun _ => "prefix") rewritePath;
     Resource.priority := 100;
     Resource.domainCertResolver := None;
     Resource.maintenanceModeEnabled := false;
     Resource.maintenanceModeType := None;
     Resource.maintenanceTitle := None;
     Resource.maintenanceMessage := None;
     Resource.maintenanceEstimatedTime := None;
     Resource.preferWildcardCert := None |}.

(** An enabled non-HTTP group with proxy on port 5432. *)
Definition rawGroup (protocol : string) (targets : list Target.t) : Resource.t :=
  {| Resource.resourceId := 2;
     Resource.name := "db";
     Resource.fullDomain := None;
     Resource.ssl := false;
     Resource.http := false;
     Resource.proxyPort := Some 5432;
     Resource.protocol := protocol;
     Resource.subdomain := None;
     Resource.domainId := None;
     Resource.enabled := true;
     Resource.stickySession := false;
     Resource.tlsServerName := None;
     Resource.setHostHeader := None;
     Resource.enableProxy := Some true;
     Resource.targets := targets;
     Resource.headers := None;
     Resource.proxyProtocol := false;
     Resource.proxyProtocolVersion := 1;
     Resource.path := None;
     Resource.pathMatchType := None;
     Resource.rewritePath := None;
     Resource.rewritePathType := None;
     Resource.priority := 100;
     Resource.domainCertResolver := None;
     Resource.maintenanceModeEnabled := false;
     Resource.maintenanceModeType := None;
     Resource.maintenanceTitle := None;
     Resource.maintenanceMessage := None;
     Resource.maintenanceEstimatedTime := None;
     Resource.preferWildcardCert := None |}.

End Fixture.

(** * Properties *)

(** ** JavaScript primitives on sample inputs *)

Example split_two_labels : Js.split "."%char "app.localhost" = ["app"; "localhost"].
Proof. reflexivity. Qed.

Example split_empty : Js.split "."%char "" = [""].
Proof. reflexivity. Qed.

Example trim_spaces : Js.trim "  le  " = "le".
Proof. reflexivity. Qed.

Example lower_tcp : Js.toLowerCase "TCP" = "tcp".
Proof. reflexivity. Qed.


(** ** Rule and priority builder *)

Section Priority.

Implicit Types r : Resource.t.

Lemma priority_override r :
  Resource.priority r <> 0 -> Resource.priority r <> 100 ->
  priority r = Resource.priority r.
Proof.
  intros H0 H100. unfold priority.
  destruct (Z.eqb_spec (Resource.priority r) 0); [contradiction|].
  destruct (Z.eqb_spec (Resource.priority r) 100); [contradiction|].
  reflexivity.
Qed.

Lemma priority_neutral r :
  neutralPriority r ->
  priority r =
    if hasPathSpec r
    then (if decide (Resource.path r = Some "/") then 1
          else 110 + matchBonus (Resource.pathMatchType r))
    else 100.
Proof.
  intros [H|H]; unfold priority; rewrite H; simpl;
    destruct (hasPathSpec r); try reflexivity;
    destruct (decide (Resource.path r = Some "/")); try reflexivity;
    unfold matchTypeIs, matchBonus;
    destruct (Resource.pathMatchType r) as [m|]; simpl; try reflexivity;
    repeat (match goal with
            | |- context [String.eqb ?a ?b] =>
                destruct (String.eqb_spec a b) as [->|?]
            | |- context [decide (?a = ?b)] =>
                destruct (decide (a = b)) as [?|?]
            end; simpl; try reflexivity; try congruence).
Qed.


Lemma priority_ordering r1 r2 r3 r4 p :
  neutralPriority r1 -> neutralPriority r2 ->
  neutralPriority r3 -> neutralPriority r4 ->
  Js.nonEmpty p = true -> p <> "/" ->
  Resource.path r1 = Some p -> Resource.pathMatchType r1 = Some "exact" ->
  Resource.path r2 = Some p -> Resource.pathMatchType r2 = Some "prefix" ->
  Resource.path r3 = Some p -> Resource.pathMatchType r3 = Some "regex" ->
  hasPathSpec r4 = false ->
  priority r1 > priority r2 /\ priority r2 > priority r3
  /\ priority r3 > priority r4.
Proof.
  intros N1 N2 N3 N4 Hp Hroot P1 M1 P2 M2 P3 M3 H4.
  assert (Hspec : forall r m, Resource.path r = Some p ->
            Resource.pathMatchType r = Some (String m.1 m.2) ->
            hasPathSpec r = true).
  { intros r m Hpath Hm. unfold hasPathSpec. rewrite Hpath, Hm.
    destruct p; [discriminate|reflexivity]. }
  assert (Hne : Some p <> Some "/") by congruence.
  rewrite (priority_neutral r1 N1), (priority_neutral r2 N2),
    (priority_neutral r3 N3), (priority_neutral r4 N4), H4.
  rewrite (Hspec r1 ("e"%char, "xact") P1 M1),
    (Hspec r2 ("p"%char, "refix") P2 M2), (Hspec r3 ("r"%char, "egex") P3 M3).
  rewrite P1, P2, P3, M1, M2, M3.
  destruct (decide (Some p = Some "/")); [contradiction|].
  vm_compute. repeat split.
Qed.

(** C4, as amended. The router priority of a group that emits no
    maintenance route is the stored override when that override is neither
    0 nor 100. Otherwise it is 100 without a path spec (path and match type
    both set), 1 when the path of a path spec is exactly [/], and else
    110 plus 5, 3 or 2 for an exact, prefix or regex match. Hence, with no
    override and one path other than [/], exact beats prefix beats regex
    beats a group without path spec. *)
Theorem C4_priority_formula :
  (forall r, Resource.priority r <> 0 -> Resource.priority r <> 100 ->
             priority r = Resource.priority r)
  /\ (forall r, neutralPriority r -> hasPathSpec r = false -> priority r = 100)
  /\ (forall r, neutralPriority r -> hasPathSpec r = true ->
                Resource.path r = Some "/" -> priority r = 1)
  /\ (forall r, neutralPriority r -> hasPathSpec r = true ->
                Resource.path r <> Some "/" ->
                priority r = 100 + 10 + matchBonus (Resource.pathMatchType r))
  /\ (forall r1 r2 r3 r4 p,
        neutralPriority r1 -> neutralPriority r2 ->
        neutralPriority r3 -> neutralPriority r4 ->
        Js.nonEmpty p = true -> p <> "/" ->
        Resource.path r1 = Some p -> Resource.pathMatchType r1 = Some "exact" ->
        Resource.path r2 = Some p -> Resource.pathMatchType r2 = Some "prefix" ->
        Resource.path r3 = Some p -> Resource.pathMatchType r3 = Some "regex" ->
        hasPathSpec r4 = false ->
        priority r1 > priority r2 /\ priority r2 > priority r3
        /\ priority r3 > priority r4).
Proof.
  split; [exact priority_override|].
  split.
  { intros r N H. rewrite (priority_neutral r N), H. reflexivity. }
  split.
  { intros r N H Hroot. rewrite (priority_neutral r N), H.
    destruct (decide (Resource.path r = Some "/")); [reflexivity|contradiction]. }
  split.
  { intros r N H Hroot. rewrite (priority_neutral r N), H.
    destruct (decide (Resource.path r = Some "/")); [contradiction|reflexivity]. }
  exact priority_ordering.
Qed.

(** The amended formula at sample groups: an override of 250, no path spec,
    the catch-all path, and the three match types on [/api]. *)
Lemma C4_priority_formula_witness :
  priority (Sample.pathGroup 250 (Some "/api") (Some "exact")) = 250
  /\ priority (Sample.pathGroup 100 None None) = 100
  /\ priority (Sample.pathGroup 100 (Some "/") (Some "prefix")) = 1
  /\ priority (Sample.pathGroup 100 (Some "/api") (Some "regex")) = 100 + 10 + 2
  /\ (priority (Sample.pathGroup 100 (Some "/api") (Some "exact"))
       > priority (Sample.pathGroup 100 (Some "/api") (Some "prefix"))
      /\ priority (Sample.pathGroup 100 (Some "/api") (Some "prefix"))
         > priority (Sample.pathGroup 100 (Some "/api") (Some "regex"))
      /\ priority (Sample.pathGroup 100 (Some "/api") (Some "regex"))
         > priority (Sample.pathGroup 100 None None)).
Proof.
  destruct C4_priority_formula as (Hover & Hnone & Hroot & Hspec & Hord).
  split; [apply Hover; simpl; lia|].
  split; [apply Hnone; [left; reflexivity|reflexivity]|].
  split; [apply Hroot; [left; reflexivity|reflexivity|reflexivity]|].
  split; [apply (Hspec (Sample.pathGroup 100 (Some "/api") (Some "regex")));
            [left; reflexivity|reflexivity|simpl; congruence]|].
  apply (Hord _ _ _ _ "/api"); try reflexivity; try (left; reflexivity).
  congruence.
Defined.

(** C4, counterexample to the claim as stated: a group whose path is exactly
    [/] and whose override is 200 gets priority 200, not 1. *)
Lemma C4_override_on_catch_all :
  Resource.path (Sample.pathGroup 200 (Some "/") (Some "prefix")) = Some "/"
  /\ priority (Sample.pathGroup 200 (Some "/") (Some "prefix")) = 200
  /\ priority (Sample.pathGroup 200 (Some "/") (Some "prefix")) <> 1.
Proof. vm_compute. repeat split; discriminate. Qed.

(** An override of 0 is falsy: the formula applies, the 0 is not used. *)
Example priority_zero_override :
  priority (Sample.pathGroup 0 (Some "/api") (Some "exact")) = 115.
Proof. reflexivity. Qed.

(** The catch-all rule needs a match type: without one the path is no spec. *)
Example priority_root_without_match_type :
  priority (Sample.pathGroup 100 (Some "/") None) = 100.
Proof. reflexivity. Qed.

End Priority.

(** ** Availability and backend servers *)

Section Servers.

Implicit Types (t : Target.t) (targets : list Target.t).
Implicit Types (a seen : list (option Server)) (v : option Server).

(** *** The two eligibility predicates *)

Lemma isAvailable_known targets t :
  isAvailable targets t = true -> knownSiteType t = true.
Proof.
  unfold isAvailable, knownSiteType.
  destruct (Target.enabled t); simpl; [|discriminate].
  destruct (anySitesOnline targets && negb (siteOnline t)); [discriminate|].
  destruct (siteTypeIs t "local" || siteTypeIs t "wireguard"); [reflexivity|].
  destruct (siteTypeIs t "newt"); [reflexivity|discriminate].
Qed.

Lemma filters_agree_known targets t :
  knownSiteType t = true -> isAvailable targets t = httpServerFilter targets t.
Proof.
  unfold isAvailable, httpServerFilter, knownSiteType.
  destruct (Target.enabled t); simpl; [|reflexivity].
  destruct (anySitesOnline targets && negb (siteOnline t)); [reflexivity|].
  destruct (siteTypeIs t "local" || siteTypeIs t "wireguard"); simpl.
  - intros _. destruct (Js.truthyS (Target.ip t)), (Js.truthyZ (Target.port t)),
      (Js.truthyS (Target.method t)); reflexivity.
  - intros ->. destruct (Js.truthyZ (Target.internalPort t)),
      (Js.truthyS (Target.method t)), (Js.truthyS (Site.subnet (Target.site t)));
      reflexivity.
Qed.

Lemma filters_other_type targets t :
  knownSiteType t = false ->
  isAvailable targets t = false
  /\ httpServerFilter targets t
     = Target.enabled t && negb (anySitesOnline targets && negb (siteOnline t))
  /\ httpServerOf t = None.
Proof.
  unfold isAvailable, httpServerFilter, httpServerOf, knownSiteType.
  intros H. apply orb_false_iff in H as [H ->]. rewrite H.
  destruct (Target.enabled t); simpl; [|auto].
  destruct (anySitesOnline targets && negb (siteOnline t)); auto.
Qed.

Lemma httpServerOf_known t : knownSiteType t = true -> is_Some (httpServerOf t).
Proof.
  unfold httpServerOf, knownSiteType.
  destruct (siteTypeIs t "local" || siteTypeIs t "wireguard"); simpl; [eauto|].
  intros ->. eauto.
Qed.

(** The non-null assertion on the subnet is justified by the filter. *)
Lemma newt_subnet_defined targets t :
  httpServerFilter targets t = true ->
  siteTypeIs t "local" || siteTypeIs t "wireguard" = false ->
  siteTypeIs t "newt" = true ->
  Js.truthyS (Site.subnet (Target.site t)) = true.
Proof.
  unfold httpServerFilter. intros H Hlw Hn. rewrite Hlw, Hn in H.
  destruct (Target.enabled t); simpl in H; [|discriminate].
  destruct (anySitesOnline targets && negb (siteOnline t)); [discriminate|].
  destruct (Js.truthyS (Site.subnet (Target.site t))); [reflexivity|].
  rewrite !orb_true_r in H. discriminate.
Qed.

Lemma newt_subnet_defined_raw targets t :
  rawServerFilter targets t = true ->
  siteTypeIs t "local" || siteTypeIs t "wireguard" = false ->
  siteTypeIs t "newt" = true ->
  Js.truthyS (Site.subnet (Target.site t)) = true.
Proof.
  unfold rawServerFilter. intros H Hlw Hn. rewrite Hlw, Hn in H.
  destruct (Target.enabled t); simpl in H; [|discriminate].
  destruct (anySitesOnline targets && negb (siteOnline t)); [discriminate|].
  destruct (Js.truthyS (Site.subnet (Target.site t))); [reflexivity|].
  rewrite orb_true_r in H. discriminate.
Qed.

(** *** Deduplication *)

Lemma sameUrl_refl v : sameUrl v v = match v with Some _ => true | None => false end.
Proof. destruct v; simpl; [apply bool_decide_eq_true; reflexivity|reflexivity]. Qed.

Lemma findIndex_app {A} (p : A -> bool) (l1 l2 : list A) :
  Js.findIndex p (l1 ++ l2)
  = match Js.findIndex p l1 with
    | Some j => Some j
    | None => option_map (fun j => (List.length l1 + j)%nat) (Js.findIndex p l2)
    end.
Proof.
  induction l1 as [|x l1 IH]; simpl.
  - destruct (Js.findIndex p l2); reflexivity.
  - destruct (p x); [reflexivity|]. rewrite IH.
    destruct (Js.findIndex p l1); simpl; [reflexivity|].
    destruct (Js.findIndex p l2); reflexivity.
Qed.

Lemma findIndex_none_iff {A} (p : A -> bool) (l : list A) :
  Js.findIndex p l = None <-> existsb p l = false.
Proof.
  induction l as [|x l IH]; simpl; [tauto|].
  destruct (p x); simpl; [split; discriminate|].
  destruct (Js.findIndex p l); simpl; split; intros H;
    try discriminate; try (apply IH; assumption); try reflexivity.
  apply IH in H. discriminate.
Qed.

Lemma findIndex_lt {A} (p : A -> bool) (l : list A) j :
  Js.findIndex p l = Some j -> (j < List.length l)%nat.
Proof.
  revert j. induction l as [|x l IH]; simpl; intros j; [discriminate|].
  destruct (p x); [intros [= <-]; lia|].
  destruct (Js.findIndex p l); simpl; [|discriminate].
  intros [= <-]. specialize (IH _ eq_refl). lia.
Qed.

(** At its own position an entry passes the test exactly when it is defined
    and nothing before it has its url. *)
Lemma sameUrl_undefined e : sameUrl e None = false.
Proof. destruct e; reflexivity. Qed.

Lemma findIndex_undefined a : Js.findIndex (fun e => sameUrl e None) a = None.
Proof.
  apply findIndex_none_iff. induction a as [|e a IH]; [reflexivity|].
  simpl. rewrite sameUrl_undefined. exact IH.
Qed.

Lemma firstAt_here seen v rest :
  firstAt (seen ++ v :: rest) v (List.length seen)
  = match v with
    | Some _ => negb (existsb (fun e => sameUrl e v) seen)
    | None => false
    end.
Proof.
  unfold firstAt. destruct v as [s|]; [|rewrite findIndex_undefined; reflexivity].
  rewrite findIndex_app.
  destruct (Js.findIndex (fun e => sameUrl e (Some s)) seen) as [j|] eqn:E.
  - pose proof (findIndex_lt _ _ _ E) as Hlt.
    assert (existsb (fun e => sameUrl e (Some s)) seen = true) as ->.
    { destruct (existsb _ seen) eqn:Ex; [reflexivity|].
      apply findIndex_none_iff in Ex. congruence. }
    destruct (Nat.eqb_spec j (List.length seen)); [lia|reflexivity].
  - apply findIndex_none_iff in E. rewrite E. cbn [Js.findIndex].
    rewrite sameUrl_refl. simpl. apply Nat.eqb_eq. lia.
Qed.

Lemma filterFrom_keepFirst rest : forall seen,
  Js.filterFrom (List.length seen) (firstAt (seen ++ rest)) rest = keepFirst seen rest.
Proof.
  induction rest as [|v rest IH]; intros seen; [reflexivity|].
  simpl. rewrite firstAt_here.
  specialize (IH (seen ++ [v])).
  rewrite <- app_assoc, length_app in IH. simpl in IH.
  replace (List.length seen + 1)%nat with (S (List.length seen)) in IH by lia.
  rewrite IH. reflexivity.
Qed.

(** [dedupe] is first-seen deduplication. *)
Lemma dedupe_keepFirst a : dedupe a = keepFirst [] a.
Proof. exact (filterFrom_keepFirst a []). Qed.

Lemma keepFirst_In seen a v :
  In v (keepFirst seen a) ->
  In v a /\ is_Some v /\ existsb (fun e => sameUrl e v) seen = false.
Proof.
  revert seen. induction a as [|w a IH]; intros seen; simpl; [tauto|].
  assert (Hrest : In v (keepFirst (seen ++ [w]) a) ->
            In v a /\ is_Some v /\ existsb (fun e => sameUrl e v) seen = false).
  { intros H. apply IH in H as (Hin & Hs & Hex). repeat split; auto.
    rewrite existsb_app in Hex. apply orb_false_iff in Hex. tauto. }
  destruct w as [s|].
  - destruct (existsb (fun e => sameUrl e (Some s)) seen) eqn:E; simpl.
    + intros H. apply Hrest in H. tauto.
    + intros [<-|H]; [eauto|]. apply Hrest in H. tauto.
  - intros H. apply Hrest in H. tauto.
Qed.

(** No two surviving entries have the same url. *)
Lemma keepFirst_NoDup seen a :
  NoDup (List.map (fmap serverUrl) (keepFirst seen a)).
Proof.
  revert seen. induction a as [|w a IH]; intros seen; simpl; [constructor|].
  destruct w as [s|]; [|apply IH].
  destruct (existsb (fun e => sameUrl e (Some s)) seen); simpl; [apply IH|].
  constructor; [|apply IH].
  rewrite list_elem_of_In, in_map_iff. intros (v & Hv & Hin).
  apply keepFirst_In in Hin as (_ & [s' ->] & Hex).
  rewrite existsb_app in Hex. apply orb_false_iff in Hex as [_ Hex].
  simpl in Hex. rewrite orb_false_r in Hex.
  apply bool_decide_eq_false in Hex. simpl in Hv. congruence.
Qed.

(** Every defined entry is represented: by an entry already seen, or by a
    surviving entry with its url. *)
Lemma keepFirst_complete seen a s :
  In (Some s) a ->
  existsb (fun e => sameUrl e (Some s)) seen = true
  \/ exists s', In (Some s') (keepFirst seen a) /\ serverUrl s' = serverUrl s.
Proof.
  revert seen. induction a as [|w a IH]; intros seen; simpl; [tauto|].
  intros [->|Hin].
  - destruct (existsb (fun e => sameUrl e (Some s)) seen); [left; reflexivity|].
    right. exists s. simpl. auto.
  - destruct (IH (seen ++ [w]) Hin) as [Hex|(s' & Hs' & Hu)].
    + rewrite existsb_app in Hex. apply orb_true_iff in Hex as [Hex|Hex]; [auto|].
      simpl in Hex. rewrite orb_false_r in Hex.
      destruct w as [sw|]; [|discriminate].
      destruct (existsb (fun e => sameUrl e (Some sw)) seen) eqn:E.
      * left. apply existsb_exists in E as (e & He & Hsame).
        apply existsb_exists. exists e. split; [exact He|].
        destruct e as [se|]; [|discriminate]. simpl in *.
        apply bool_decide_eq_true in Hsame, Hex. apply bool_decide_eq_true.
        congruence.
      * right. exists sw. simpl. split; [auto|].
        apply bool_decide_eq_true in Hex. exact Hex.
    + right. exists s'. split; [|exact Hu].
      destruct (match w with
                | Some _ => negb (existsb (fun e => sameUrl e w) seen)
                | None => false
                end); simpl; auto.
Qed.

(** The survivors stand in the order of the input. *)
Lemma keepFirst_sublist seen a : sublist (keepFirst seen a) a.
Proof.
  revert seen. induction a as [|w a IH]; intros seen; simpl; [constructor|].
  destruct (match w with
            | Some _ => negb (existsb (fun e => sameUrl e w) seen)
            | None => false
            end); [apply sublist_skip|apply sublist_cons]; apply IH.
Qed.

(** *** Health and the emitted list *)

Lemma hasHealthy_iff targets :
  hasHealthyServers targets = true
  <-> exists t, In t targets /\ isAvailable targets t = true.
Proof.
  unfold hasHealthyServers, availableServers. rewrite Nat.ltb_lt. split.
  - destruct (List.filter (isAvailable targets) targets) as [|t l] eqn:E;
      simpl; [lia|]. intros _.
    assert (In t (List.filter (isAvailable targets) targets)) as Hin
      by (rewrite E; left; reflexivity).
    apply filter_In in Hin. eauto.
  - intros (t & Hin & Hav).
    assert (In t (List.filter (isAvailable targets) targets)) as Hf
      by (apply filter_In; auto).
    destruct (List.filter (isAvailable targets) targets); [destruct Hf|simpl; lia].
Qed.

Lemma httpServers_In targets v :
  In v (httpServers targets) ->
  exists t s, v = Some s /\ In t targets /\ httpServerFilter targets t = true
              /\ httpServerOf t = Some s.
Proof.
  unfold httpServers. rewrite dedupe_keepFirst. intros H.
  apply keepFirst_In in H as (Hin & [s ->] & _).
  apply in_map_iff in Hin as (t & Hof & Hin). apply filter_In in Hin as [Hin Hf].
  exists t, s. auto.
Qed.

Lemma httpServers_nonempty_iff targets :
  httpServers targets <> []
  <-> exists t, In t targets /\ httpServerFilter targets t = true
                /\ knownSiteType t = true.
Proof.
  split.
  - intros Hne. destruct (httpServers targets) as [|v l] eqn:E; [contradiction|].
    assert (In v (httpServers targets)) as Hin by (rewrite E; left; reflexivity).
    apply httpServers_In in Hin as (t & s & -> & Hin & Hf & Hof).
    exists t. repeat split; auto.
    destruct (knownSiteType t) eqn:K; [reflexivity|].
    destruct (filters_other_type targets t K) as (_ & _ & Hnone). congruence.
  - intros (t & Hin & Hf & K).
    destruct (httpServerOf_known t K) as [s Hs].
    assert (In (Some s) (List.map httpServerOf
                           (List.filter (httpServerFilter targets) targets))) as Hm.
    { apply in_map_iff. exists t. split; [exact Hs|]. apply filter_In. auto. }
    unfold httpServers. rewrite dedupe_keepFirst.
    destruct (keepFirst_complete [] _ s Hm) as [Hex|(s' & Hs' & _)];
      [discriminate|].
    intros Heq. rewrite Heq in Hs'. destruct Hs'.
Qed.

(** C2, as amended. The availability predicate and the backend filter agree
    on every target whose site type is local, wireguard or newt. A target of
    another site type is never an available server, whereas the backend
    filter keeps it when it is enabled and passes the online preference; it
    then resolves to no endpoint and is dropped with the duplicates. So a
    group has an available server exactly when its emitted server list is
    not empty. *)
Theorem C2_eligibility_agreement targets t :
  (knownSiteType t = true -> isAvailable targets t = httpServerFilter targets t)
  /\ (knownSiteType t = false ->
        isAvailable targets t = false
        /\ httpServerFilter targets t
           = Target.enabled t && negb (anySitesOnline targets && negb (siteOnline t))
        /\ httpServerOf t = None)
  /\ (hasHealthyServers targets = true <-> httpServers targets <> []).
Proof.
  split; [apply filters_agree_known|].
  split; [apply filters_other_type|].
  rewrite hasHealthy_iff, httpServers_nonempty_iff.
  split; intros (u & Hin & H).
  - pose proof (isAvailable_known _ _ H) as K. exists u.
    rewrite <- (filters_agree_known targets u K). auto.
  - destruct H as [Hf K]. exists u. rewrite (filters_agree_known targets u K). auto.
Qed.

(** The amended statement at a newt target and at a target of another site
    type, both alone in their group. *)
Lemma C2_eligibility_agreement_witness :
  isAvailable [Sample.target 1 "newt" true "10.0.0.5" 8080]
    (Sample.target 1 "newt" true "10.0.0.5" 8080)
  = httpServerFilter [Sample.target 1 "newt" true "10.0.0.5" 8080]
      (Sample.target 1 "newt" true "10.0.0.5" 8080)
  /\ httpServerOf (Sample.target 2 "other" true "10.0.0.6" 8080) = None.
Proof.
  split.
  - exact (proj1 (C2_eligibility_agreement
                    [Sample.target 1 "newt" true "10.0.0.5" 8080]
                    (Sample.target 1 "newt" true "10.0.0.5" 8080)) eq_refl).
  - exact (proj2 (proj2 (proj1 (proj2 (C2_eligibility_agreement
                    [Sample.target 2 "other" true "10.0.0.6" 8080]
                    (Sample.target 2 "other" true "10.0.0.6" 8080))) eq_refl))).
Defined.

(** C2, counterexample to the claim as stated: an enabled target on an
    online site of a type other than local, wireguard and newt is not an
    available server, yet the backend filter lets it pass. *)
Lemma C2_other_site_type_diverges :
  isAvailable [Sample.target 2 "other" true "10.0.0.6" 8080]
    (Sample.target 2 "other" true "10.0.0.6" 8080) = false
  /\ httpServerFilter [Sample.target 2 "other" true "10.0.0.6" 8080]
       (Sample.target 2 "other" true "10.0.0.6" 8080) = true.
Proof. split; reflexivity. Qed.

(** The same group end to end: no healthy server and an empty server list. *)
Example other_site_type_emits_nothing :
  hasHealthyServers [Sample.target 2 "other" true "10.0.0.6" 8080] = false
  /\ httpServers [Sample.target 2 "other" true "10.0.0.6" 8080] = [].
Proof. split; reflexivity. Qed.

(** *** Online preference *)








Example one_site_online :
  httpServers [Sample.target 1 "local" true "10.0.0.5" 8080;
               Sample.target 2 "local" false "10.0.0.6" 8080]
  = [Some (Url "http://10.0.0.5:8080")]
  /\ rawServers [Sample.target 1 "local" true "10.0.0.5" 8080;
                 Sample.target 2 "local" false "10.0.0.6" 8080]
     = [Some (Address "10.0.0.5:8080")].
Proof. split; reflexivity. Qed.

Example no_site_online :
  httpServers [Sample.target 1 "local" false "10.0.0.5" 8080;
               Sample.target 2 "local" false "10.0.0.6" 8080]
  = [Some (Url "http://10.0.0.5:8080"); Some (Url "http://10.0.0.6:8080")]
  /\ rawServers [Sample.target 1 "newt" false "10.0.0.5" 8080;
                 Sample.target 2 "local" false "10.0.0.6" 8080]
     = [Some (Address "100.90.128.0:40000"); Some (Address "10.0.0.6:8080")].
Proof. split; reflexivity. Qed.

(** *** Deduplication of the emitted list *)

Lemma httpServerOf_url t s : httpServerOf t = Some s -> exists u, s = Url u.
Proof.
  unfold httpServerOf.
  destruct (siteTypeIs t "local" || siteTypeIs t "wireguard");
    [intros [= <-]; eauto|].
  destruct (siteTypeIs t "newt"); [intros [= <-]; eauto|discriminate].
Qed.

(** X1. The HTTP server list is the first-seen deduplication of the resolved
    endpoints: it repeats no entry, keeps the order of the targets, and holds
    the endpoint of every target that passes the filter and resolves. *)
Theorem httpServers_deduplicated targets :
  httpServers targets
  = keepFirst [] (List.map httpServerOf (List.filter (httpServerFilter targets) targets))
  /\ NoDup (httpServers targets)
  /\ sublist (httpServers targets)
       (List.map httpServerOf (List.filter (httpServerFilter targets) targets))
  /\ (forall t s, In t targets -> httpServerFilter targets t = true ->
                  httpServerOf t = Some s -> In (Some s) (httpServers targets)).
Proof.
  unfold httpServers. rewrite dedupe_keepFirst.
  split; [reflexivity|].
  split; [exact (NoDup_fmap_1 _ _ (keepFirst_NoDup [] _))|].
  split; [apply keepFirst_sublist|].
  intros t s Hin Hf Hof.
  assert (In (Some s) (List.map httpServerOf
                         (List.filter (httpServerFilter targets) targets))) as Hm.
  { apply in_map_iff. exists t. split; [exact Hof|]. apply filter_In. auto. }
  destruct (keepFirst_complete [] _ s Hm) as [Hex|(s' & Hs' & Hu)]; [discriminate|].
  pose proof Hs' as Hs''. apply keepFirst_In in Hs'' as (Hin' & _ & _).
  apply in_map_iff in Hin' as (t' & Hof' & _).
  apply httpServerOf_url in Hof as [u ->]. apply httpServerOf_url in Hof' as [u' ->].
  simpl in Hu. congruence.
Qed.

End Servers.

(** ** TLS policy *)

Section TlsPolicy.

Variable traefik : Traefik.t.
Implicit Types (r : Resource.t) (fullDomain : string).




End TlsPolicy.

(** C7 at its failing input. For the SSL resource [app.localhost] with
    subdomain [app], wildcard certificates preferred: the maintenance router
    asks for [*.localhost], the resolver of the normal router for
    [*.app.localhost]. And for a resolver override of two spaces the
    maintenance router falls back to the global resolver, the normal router
    names the empty resolver. *)
Theorem C7_maintenance_tls_differs :
  maintenanceTls (Sample.traefik (Some true))
    (Sample.tlsGroup "app.localhost" (Some "app") None) "app.localhost"
  = {| Tls.certResolver := Some "letsencrypt"; Tls.domains := Some ["*.localhost"] |}
  /\ normalTls (Sample.traefik (Some true))
       (Sample.tlsGroup "app.localhost" (Some "app") None) "app.localhost"
     = {| Tls.certResolver := Some "letsencrypt";
          Tls.domains := Some ["*.app.localhost"] |}
  /\ Tls.certResolver
       (maintenanceTls (Sample.traefik None)
          (Sample.tlsGroup "app.example.com" (Some "app") (Some "  ")) "app.example.com")
     = Some "letsencrypt"
  /\ Tls.certResolver
       (normalTls (Sample.traefik None)
          (Sample.tlsGroup "app.example.com" (Some "app") (Some "  ")) "app.example.com")
     = Some "".
Proof. repeat split. Qed.


(** ** Route-group aggregation *)

Section Aggregation.

Variable sanitize : option string -> option string.
Variable validatePathRewriteConfig :
  option string -> option string -> option string -> option string -> bool.

Local Abbreviation key := (key sanitize).
Local Abbreviation newGroup := (newGroup sanitize).
Local Abbreviation addRow := (addRow sanitize validatePathRewriteConfig).
Local Abbreviation aggregate := (aggregate sanitize validatePathRewriteConfig).
Local Abbreviation validRow := (validRow validatePathRewriteConfig).

Implicit Types (m : list (option string * Resource.t)) (row : DbRow.t) (rows : list DbRow.t).
Implicit Types (k : option string) (r : Resource.t) (tg : Target.t).

Lemma mapPush_length k tg m : List.length (mapPush k tg m) = List.length m.
Proof.
  induction m as [|[k' r] m IH]; [reflexivity|]. simpl.
  destruct (decide (k' = k)); simpl; [reflexivity|]. rewrite IH. reflexivity.
Qed.

Lemma mapPush_In k tg m k' r' :
  In (k', r') (mapPush k tg m) ->
  exists r, In (k', r) m /\ (r' = r \/ r' = Resource.pushTarget tg r).
Proof.
  induction m as [|[k0 r0] m IH]; simpl; [tauto|].
  destruct (decide (k0 = k)); simpl.
  - intros [[= <- <-]|H]; eauto.
  - intros [[= <- <-]|H]; [eauto|].
    destruct (IH H) as (r & Hin & Hr). eauto.
Qed.

Lemma pushTarget_withTargets tg ts r :
  Resource.pushTarget tg (Resource.withTargets ts r)
  = Resource.withTargets (ts ++ [tg]) r.
Proof. reflexivity. Qed.

Lemma newGroup_withTargets row : newGroup row = Resource.withTargets [] (newGroup row).
Proof. reflexivity. Qed.

Lemma aggregate_snoc rows row : aggregate (rows ++ [row]) = addRow (aggregate rows) row.
Proof. unfold aggregate. rewrite fold_left_app. reflexivity. Qed.

(** Every group is the object created for some accepted row, with targets
    pushed on it. *)
Lemma aggregate_groups rows k r :
  In (k, r) (aggregate rows) ->
  exists row ts, In row rows /\ key row = k /\ validRow row = true
                 /\ r = Resource.withTargets ts (newGroup row).
Proof.
  revert k r. induction rows as [|row rows IH] using rev_ind; intros k r.
  - intros [].
  - rewrite aggregate_snoc. unfold addRow.
    assert (Hold : forall k' r', In (k', r') (aggregate rows) ->
              exists row' ts, In row' (rows ++ [row]) /\ key row' = k'
                /\ validRow row' = true
                /\ r' = Resource.withTargets ts (newGroup row')).
    { intros k' r' H. destruct (IH _ _ H) as (row' & ts & Hin & Hrest).
      exists row', ts. split; [apply in_or_app; auto|exact Hrest]. }
    assert (Hpush : forall m, (forall k' r', In (k', r') m ->
                exists row' ts, In row' (rows ++ [row]) /\ key row' = k'
                  /\ validRow row' = true
                  /\ r' = Resource.withTargets ts (newGroup row')) ->
              In (k, r) (mapPush (key row) (targetOf row) m) ->
              exists row' ts, In row' (rows ++ [row]) /\ key row' = k
                /\ validRow row' = true
                /\ r = Resource.withTargets ts (newGroup row')).
    { intros m Hm H. apply mapPush_In in H as (r0 & Hin & [->| ->]); [eauto|].
      destruct (Hm _ _ Hin) as (row' & ts & Hin' & Hk & Hv & ->).
      exists row', (ts ++ [targetOf row]). auto. }
    destruct (mapHas (key row) (aggregate rows)); [apply Hpush; exact Hold|].
    destruct (validatePathRewriteConfig _ _ _ _) eqn:V; [|apply Hold].
    apply Hpush. intros k' r' H. apply in_app_or in H as [H|[[= <- <-]|[]]].
    + apply Hold; exact H.
    + exists row, []. split; [apply in_or_app; right; left; reflexivity|].
      repeat split. exact V.
Qed.

Lemma addRow_nonempty m row : m <> [] -> addRow m row <> [].
Proof.
  intros Hm. unfold addRow.
  assert (Hlen : forall m', m' <> [] ->
            mapPush (key row) (targetOf row) m' <> []).
  { intros m' Hm' Heq. apply (f_equal (@List.length _)) in Heq.
    rewrite mapPush_length in Heq. destruct m'; [contradiction|discriminate]. }
  destruct (mapHas (key row) m); [apply Hlen; exact Hm|].
  destruct (validatePathRewriteConfig _ _ _ _); [|exact Hm].
  apply Hlen. destruct m; discriminate.
Qed.

Lemma addRow_empty row :
  addRow [] row = [] <-> validRow row = false.
Proof.
  unfold addRow, validRow. simpl.
  destruct (validatePathRewriteConfig _ _ _ _); simpl.
  - destruct (decide (key row = key row)); [|contradiction].
    split; discriminate.
  - tauto.
Qed.

Lemma fold_addRow_empty rows : forall m,
  fold_left addRow rows m = [] <-> m = [] /\ Forall (fun row => validRow row = false) rows.
Proof.
  induction rows as [|row rows IH]; intros m; simpl.
  - split; [intros ->; auto|tauto].
  - rewrite IH. split.
    + intros [Hadd Hall]. destruct m as [|g m].
      * split; [reflexivity|]. constructor; [apply addRow_empty; exact Hadd|exact Hall].
      * exfalso. apply (addRow_nonempty (g :: m) row); [discriminate|exact Hadd].
    + intros [-> Hall]. inversion Hall; subst.
      split; [apply addRow_empty; assumption|assumption].
Qed.

(** No group results exactly when the validator rejects every row. *)
Lemma aggregate_empty_iff rows :
  aggregate rows = [] <-> Forall (fun row => validRow row = false) rows.
Proof.
  unfold aggregate. rewrite fold_addRow_empty. tauto.
Qed.

Lemma addRow_first row :
  validRow row = true ->
  addRow [] row = [(key row, Resource.pushTarget (targetOf row) (newGroup row))].
Proof.
  unfold addRow, validRow. simpl. intros ->. simpl.
  destruct (decide (key row = key row)); [reflexivity|contradiction].
Qed.

(** A row whose key is already in the map joins that group unvalidated. *)
Lemma addRow_same_key k r row :
  key row = k ->
  addRow [(k, r)] row = [(k, Resource.pushTarget (targetOf row) r)].
Proof.
  intros <-. unfold addRow, mapHas. simpl.
  destruct (decide (key row = key row)); [reflexivity|contradiction].
Qed.

(** Rows of one resource whose sanitized paths and other three fields read
    the same get the same key. *)
Lemma key_same_configuration row1 row2 :
  DbRow.resourceId row1 = DbRow.resourceId row2 ->
  Js.orEmpty (sanitize (DbRow.path row1)) = Js.orEmpty (sanitize (DbRow.path row2)) ->
  Js.orEmpty (DbRow.pathMatchType row1) = Js.orEmpty (DbRow.pathMatchType row2) ->
  Js.orEmpty (DbRow.rewritePath row1) = Js.orEmpty (DbRow.rewritePath row2) ->
  Js.orEmpty (DbRow.rewritePathType row1) = Js.orEmpty (DbRow.rewritePathType row2) ->
  key row1 = key row2.
Proof.
  intros Hid Hp Hm Hr Ht. unfold key, mapKey, pathKey, targetPath.
  rewrite Hid, Hp, Hm, Hr, Ht. reflexivity.
Qed.

(** *** The wildcard preference of an aggregated group *)

Variable traefik : Traefik.t.

(** X3. On any group object, the TLS block of the normal branch asks for the
    wildcard domain when the object carries a true override, or carries none
    and the process-wide default is true. *)
Lemma normalTls_wildcard_iff r fullDomain :
  is_Some (Tls.domains (normalTls traefik r fullDomain))
  <-> Resource.preferWildcardCert r = Some true
      \/ (Resource.preferWildcardCert r = None
          /\ Traefik.prefer_wildcard_cert traefik = Some true).
Proof.
  unfold normalTls, preferWildcard. simpl.
  destruct (Resource.preferWildcardCert r) as [[|]|]; simpl.
  - split; [intros _; left; reflexivity|eauto].
  - split; [intros [x Hx]; discriminate|intros [H|[H _]]; discriminate].
  - destruct (Traefik.prefer_wildcard_cert traefik) as [[|]|]; simpl.
    + split; [intros _; right; split; reflexivity|eauto].
    + split; [intros [x Hx]; discriminate|intros [H|[_ H]]; discriminate].
    + split; [intros [x Hx]; discriminate|intros [H|[_ H]]; discriminate].
Qed.

(** C6 on the code. No group that comes out of the aggregator carries a
    wildcard preference: the object literal does not set the property. The
    TLS block of either branch therefore asks for the wildcard domain exactly
    when the process-wide default is true, and no resource can override it. *)
Theorem C6_override_never_reaches_tls rows k r fullDomain :
  In (k, r) (aggregate rows) ->
  Resource.preferWildcardCert r = None
  /\ preferWildcard traefik r = Traefik.prefer_wildcard_cert traefik
  /\ (is_Some (Tls.domains (normalTls traefik r fullDomain))
      <-> Traefik.prefer_wildcard_cert traefik = Some true)
  /\ (is_Some (Tls.domains (maintenanceTls traefik r fullDomain))
      <-> Traefik.prefer_wildcard_cert traefik = Some true).
Proof.
  intros Hin. apply aggregate_groups in Hin as (row & ts & _ & _ & _ & ->).
  split; [reflexivity|]. split; [reflexivity|].
  unfold normalTls, maintenanceTls, preferWildcard. simpl.
  destruct (Traefik.prefer_wildcard_cert traefik) as [[|]|]; simpl;
    (split; split; intros H);
    try reflexivity; try discriminate; try (destruct H; discriminate); eauto.
Qed.

End Aggregation.

(** The group of one HTTP row under a configuration that prefers wildcard
    certificates: it carries no override and follows the default. *)
Lemma C6_override_never_reaches_tls_witness :
  Resource.preferWildcardCert
    (Resource.withTargets [targetOf (Sample.httpRow 1 None None None None)]
       (newGroup Sample.sanitize (Sample.httpRow 1 None None None None))) = None
  /\ preferWildcard (Sample.traefik (Some true))
       (Resource.withTargets [targetOf (Sample.httpRow 1 None None None None)]
          (newGroup Sample.sanitize (Sample.httpRow 1 None None None None)))
     = Some true.
Proof.
  refine (let H := C6_override_never_reaches_tls Sample.sanitize Sample.acceptAll
                     (Sample.traefik (Some true))
                     [Sample.httpRow 1 None None None None] (Some "1")
                     (Resource.withTargets
                        [targetOf (Sample.httpRow 1 None None None None)]
                        (newGroup Sample.sanitize (Sample.httpRow 1 None None None None)))
                     "example.com" _ in
          conj (proj1 H) (proj1 (proj2 H))).
  left. reflexivity.
Defined.

(** C8 at its failing input. Two rows of resource 1 on path [/a]: one with
    match type [prefix] and no rewrite, one with no match type and rewrite
    path [prefix]. Their configurations differ, yet under every sanitizer
    they get one key, and the aggregator merges them into one group that
    keeps the configuration of the first row and the targets of both. *)
Theorem C8_distinct_configurations_share_key :
  DbRow.resourceId (Sample.httpRow 1 (Some "/a") (Some "prefix") None None)
  = DbRow.resourceId (Sample.httpRow 2 (Some "/a") None (Some "prefix") None)
  /\ pathConfig (Sample.httpRow 1 (Some "/a") (Some "prefix") None None)
     <> pathConfig (Sample.httpRow 2 (Some "/a") None (Some "prefix") None)
  /\ (forall sanitize,
        key sanitize (Sample.httpRow 1 (Some "/a") (Some "prefix") None None)
        = key sanitize (Sample.httpRow 2 (Some "/a") None (Some "prefix") None))
  /\ (forall sanitize validate,
        validate (Some "/a") (Some "prefix") None None = true ->
        exists k g,
          aggregate sanitize validate
            [Sample.httpRow 1 (Some "/a") (Some "prefix") None None;
             Sample.httpRow 2 (Some "/a") None (Some "prefix") None]
          = [(k, g)]
          /\ List.map Target.targetId (Resource.targets g) = [1; 2]
          /\ Resource.pathMatchType g = Some "prefix"
          /\ Resource.rewritePath g = None).
Proof.
  assert (Hkey : forall sanitize,
            key sanitize (Sample.httpRow 1 (Some "/a") (Some "prefix") None None)
            = key sanitize (Sample.httpRow 2 (Some "/a") None (Some "prefix") None)).
  { intros sanitize. unfold key, mapKey, pathKey, targetPath, Js.joinTruthy. simpl.
    destruct (Js.nonEmpty (Js.orEmpty (sanitize (Some "/a")))); reflexivity. }
  split; [reflexivity|]. split; [discriminate|]. split; [exact Hkey|].
  intros sanitize validate Hvalid. unfold aggregate. simpl.
  rewrite addRow_first by exact Hvalid.
  rewrite addRow_same_key by (symmetry; apply Hkey).
  eexists _, _. split; [reflexivity|]. repeat split.
Qed.

(** Two valid configurations that a lossy sanitizer identifies: under the
    sample sanitizer the paths [/a/b] and [/a-b] give one key. *)
Example lossy_sanitizer_merges_paths :
  key Sample.sanitize (Sample.httpRow 1 (Some "/a/b") (Some "prefix") None None)
  = key Sample.sanitize (Sample.httpRow 2 (Some "/a-b") (Some "prefix") None None).
Proof. reflexivity. Qed.

(** ** Emission of one group *)

Section Emission.

Variable createPathRewriteMiddleware :
  string -> string -> string -> string -> string -> option RewriteResult.t.
Variable parseHeaders : string -> option (list (string * string)).
Variable traefik : Traefik.t.

Local Abbreviation emitHttp := (emitHttp createPathRewriteMiddleware parseHeaders traefik).
Local Abbreviation emitNormal := (emitNormal createPathRewriteMiddleware parseHeaders traefik).
Local Abbreviation emitGroup := (emitGroup createPathRewriteMiddleware parseHeaders traefik).
Local Abbreviation emitAll := (emitAll createPathRewriteMiddleware parseHeaders traefik).
Local Abbreviation emitMaintenance := (emitMaintenance traefik).
Local Abbreviation emitRaw := (emitRaw traefik).
Local Abbreviation rewriteStep := (rewriteStep createPathRewriteMiddleware).
Local Abbreviation headersStep := (headersStep parseHeaders).

Implicit Types (k : option string) (r : Resource.t) (f : Family.t).
Implicit Types (out : ConfigOutput) (fullDomain n : string).

Lemma redirectOf_ne n : redirectOf n <> n.
Proof.
  unfold redirectOf. induction n as [|c n IH]; simpl; [discriminate|].
  intros [= H]. exact (IH H).
Qed.

(** *** The decision *)




(** *** What each branch writes *)

Lemma routersOf_init f : routersOf (initRoutersServices f) = routersOf f.
Proof. reflexivity. Qed.

Lemma servicesOf_init f : servicesOf (initRoutersServices f) = servicesOf f.
Proof. reflexivity. Qed.

Lemma routersOf_setRouter n (v : Router.t) f :
  routersOf (setRouter n v f) = <[n := v]> (routersOf f).
Proof. reflexivity. Qed.

Lemma routersOf_setService n (v : Service.t) f :
  routersOf (setService n v f) = routersOf f.
Proof. reflexivity. Qed.

Lemma routersOf_setServersTransport n (v : ServersTransport.t) f :
  routersOf (setServersTransport n v f) = routersOf f.
Proof. reflexivity. Qed.

Lemma servicesOf_setRouter n (v : Router.t) f :
  servicesOf (setRouter n v f) = servicesOf f.
Proof. reflexivity. Qed.

Lemma servicesOf_setService n (v : Service.t) f :
  servicesOf (setService n v f) = <[n := v]> (servicesOf f).
Proof. reflexivity. Qed.

Lemma servicesOf_setServersTransport n (v : ServersTransport.t) f :
  servicesOf (setServersTransport n v f) = servicesOf f.
Proof. reflexivity. Qed.

Lemma emitMaintenance_routers k r fullDomain f :
  routersOf (emitMaintenance k r fullDomain f)
  = if Resource.ssl r
    then <[redirectOf (maintenanceRouterName k) := maintenanceRedirect traefik k fullDomain]>
           (<[maintenanceRouterName k := maintenanceRouter traefik k r fullDomain]>
              (routersOf f))
    else <[maintenanceRouterName k := maintenanceRouter traefik k r fullDomain]>
           (routersOf f).
Proof. unfold emitMaintenance. destruct (Resource.ssl r); reflexivity. Qed.

Lemma emitMaintenance_services k r fullDomain f :
  servicesOf (emitMaintenance k r fullDomain f)
  = <[maintenanceServiceName k := maintenanceService traefik]> (servicesOf f).
Proof. unfold emitMaintenance. destruct (Resource.ssl r); reflexivity. Qed.


(** The rewrite and header blocks touch the middlewares only. *)
Lemma rewriteStep_frame k r (st : Family.t * list string) :
  Family.routers (rewriteStep k r st).1 = Family.routers st.1
  /\ Family.services (rewriteStep k r st).1 = Family.services st.1
  /\ Family.serversTransports (rewriteStep k r st).1 = Family.serversTransports st.1.
Proof.
  unfold rewriteStep.
  destruct (Resource.rewritePath r), (Resource.path r); auto.
  destruct (_ && _); auto.
  destruct (createPathRewriteMiddleware _ _ _ _ _); auto.
Qed.

Lemma headersStep_frame k r (st : Family.t * list string) :
  Family.routers (headersStep k r st).1 = Family.routers st.1
  /\ Family.services (headersStep k r st).1 = Family.services st.1
  /\ Family.serversTransports (headersStep k r st).1 = Family.serversTransports st.1.
Proof.
  unfold headersStep. destruct (_ || _); auto. destruct (_ <? _)%nat; auto.
Qed.

Lemma emitNormal_routers k r fullDomain f :
  exists mws,
    routersOf (emitNormal k r fullDomain f)
    = if Resource.ssl r
      then <[redirectOf (routerName k r) := normalRedirect traefik k r fullDomain]>
             (<[routerName k r := normalRouter traefik k r fullDomain mws]> (routersOf f))
      else <[routerName k r := normalRouter traefik k r fullDomain mws]> (routersOf f).
Proof.
  unfold emitNormal.
  set (st := headersStep k r (rewriteStep k r (f, _))).
  exists st.2.
  assert (Hr : routersOf st.1 = routersOf f).
  { unfold routersOf, st.
    destruct (headersStep_frame k r (rewriteStep k r
                (f, badgerMiddlewareName
                    :: default [] (Traefik.additional_middlewares traefik))))
      as (-> & _ & _).
    destruct (rewriteStep_frame k r
                (f, badgerMiddlewareName
                    :: default [] (Traefik.additional_middlewares traefik)))
      as (-> & _ & _).
    reflexivity. }
  destruct (Resource.ssl r), (Js.truthyS (Resource.tlsServerName r));
    rewrite ?routersOf_setServersTransport, ?routersOf_setService,
      ?routersOf_setRouter, Hr; reflexivity.
Qed.

Lemma emitNormal_services k r fullDomain f :
  servicesOf (emitNormal k r fullDomain f)
  = <[serviceName k r := normalService k r]> (servicesOf f).
Proof.
  unfold emitNormal.
  set (st := headersStep k r (rewriteStep k r (f, _))).
  assert (Hs : servicesOf st.1 = servicesOf f).
  { unfold servicesOf, st.
    destruct (headersStep_frame k r (rewriteStep k r
                (f, badgerMiddlewareName
                    :: default [] (Traefik.additional_middlewares traefik))))
      as (_ & -> & _).
    destruct (rewriteStep_frame k r
                (f, badgerMiddlewareName
                    :: default [] (Traefik.additional_middlewares traefik)))
      as (_ & -> & _).
    reflexivity. }
  destruct (Resource.ssl r), (Js.truthyS (Resource.tlsServerName r));
    rewrite ?servicesOf_setServersTransport, ?servicesOf_setService,
      ?servicesOf_setRouter, Hs; reflexivity.
Qed.



End Emission.


(** ** The document *)

Section Document.

Variable sanitize : option string -> option string.
Variable validatePathRewriteConfig :
  option string -> option string -> option string -> option string -> bool.
Variable createPathRewriteMiddleware :
  string -> string -> string -> string -> string -> option RewriteResult.t.
Variable parseHeaders : string -> option (list (string * string)).
Variable traefik : Traefik.t.

Local Abbreviation aggregate := (aggregate sanitize validatePathRewriteConfig).
Local Abbreviation validRow := (validRow validatePathRewriteConfig).
Local Abbreviation emitHttp := (emitHttp createPathRewriteMiddleware parseHeaders traefik).
Local Abbreviation emitNormal := (emitNormal createPathRewriteMiddleware parseHeaders traefik).
Local Abbreviation emitGroup := (emitGroup createPathRewriteMiddleware parseHeaders traefik).
Local Abbreviation emitAll := (emitAll createPathRewriteMiddleware parseHeaders traefik).
Local Abbreviation emitMaintenance := (emitMaintenance traefik).
Local Abbreviation emitRaw := (emitRaw traefik).
Local Abbreviation rewriteStep := (rewriteStep createPathRewriteMiddleware).
Local Abbreviation headersStep := (headersStep parseHeaders).
Local Abbreviation getTraefikConfig :=
  (getTraefikConfig sanitize validatePathRewriteConfig createPathRewriteMiddleware
     parseHeaders traefik).

Implicit Types (k : option string) (r : Resource.t) (f : Family.t).
Implicit Types (out : ConfigOutput) (n p : string).
Implicit Types (groups : list (option string * Resource.t)) (rows : list DbRow.t).

(** *** The redirect middleware survives every write *)

Lemma definesRedirect_same f f' :
  Family.middlewares f' = Family.middlewares f ->
  definesRedirect f -> definesRedirect f'.
Proof. unfold definesRedirect. intros ->. tauto. Qed.

Lemma definesRedirect_setMiddleware n (v : Middleware) f :
  definesRedirect f -> definesRedirect (setMiddleware n v f).
Proof.
  intros (m & Hm & Hs). exists (<[n := v]> m). split.
  - unfold setMiddleware, middlewaresOf. rewrite Hm. reflexivity.
  - apply lookup_insert_is_Some'. right. exact Hs.
Qed.

Lemma rewriteStep_redirect k r (st : Family.t * list string) :
  definesRedirect st.1 -> definesRedirect (rewriteStep k r st).1.
Proof.
  intros Hd. unfold rewriteStep.
  destruct (Resource.rewritePath r), (Resource.path r); auto.
  destruct (_ && _); auto.
  destruct (createPathRewriteMiddleware _ _ _ _ _) as [res|]; auto.
  destruct Hd as (m & Hm & Hs). simpl.
  exists (RewriteResult.middlewares res ∪ m). split.
  - unfold middlewaresOf. rewrite Hm. reflexivity.
  - apply lookup_union_is_Some. right. exact Hs.
Qed.

Lemma headersStep_redirect k r (st : Family.t * list string) :
  definesRedirect st.1 -> definesRedirect (headersStep k r st).1.
Proof.
  intros Hd. unfold headersStep. destruct (_ || _); auto.
  destruct (_ <? _)%nat; auto. apply definesRedirect_setMiddleware. exact Hd.
Qed.

Lemma emitHttp_redirect k r fullDomain f :
  definesRedirect f -> definesRedirect (emitHttp k r fullDomain f).
Proof.
  intros Hd.
  assert (Hi : definesRedirect (initRoutersServices f))
    by (revert Hd; apply definesRedirect_same; reflexivity).
  unfold emitHttp. destruct (showMaintenancePage r).
  - revert Hi. apply definesRedirect_same.
    unfold emitMaintenance. destruct (Resource.ssl r); reflexivity.
  - unfold emitNormal.
    set (st := headersStep k r (rewriteStep k r (initRoutersServices f, _))).
    assert (Hst : definesRedirect st.1)
      by (apply headersStep_redirect, rewriteStep_redirect; exact Hi).
    revert Hst. apply definesRedirect_same.
    destruct (Resource.ssl r), (Js.truthyS (Resource.tlsServerName r)); reflexivity.
Qed.

Lemma initialOutput_redirect : hasRedirect initialOutput.
Proof.
  eexists. split; [reflexivity|]. eexists. split; [reflexivity|].
  eexists. reflexivity.
Qed.

Lemma initialOutput_ready : rawFamiliesReady initialOutput.
Proof.
  intros p f Hp H. unfold initialOutput in H.
  rewrite lookup_singleton_ne in H by congruence. discriminate.
Qed.

(** *** One iteration keeps the document well formed *)

Lemma raw_write_inv p (g : Family.t) out :
  p <> "http" \/ (exists f, out !! "http" = Some f
                           /\ Family.middlewares g = Family.middlewares f) ->
  is_Some (Family.routers g) -> is_Some (Family.services g) ->
  hasRedirect out -> rawFamiliesReady out ->
  hasRedirect (<[p := g]> out) /\ rawFamiliesReady (<[p := g]> out).
Proof.
  intros Hp Hr Hs (fh & Hh & Hd) Hready. split.
  - destruct (decide (p = "http")) as [->|Hne].
    + destruct Hp as [Hp|(f & Hf & Hm)]; [contradiction|].
      exists g. split; [apply lookup_insert_eq|].
      rewrite Hh in Hf. injection Hf as <-.
      revert Hd. apply definesRedirect_same. exact Hm.
    + exists fh. split; [|exact Hd]. rewrite lookup_insert_ne by exact Hne. exact Hh.
  - intros q g' Hq Hl. destruct (decide (p = q)) as [->|Hne].
    + rewrite lookup_insert_eq in Hl. injection Hl as <-. auto.
    + rewrite lookup_insert_ne in Hl by exact Hne. exact (Hready q g' Hq Hl).
Qed.

Lemma emitRaw_inv k r out out' :
  hasRedirect out -> rawFamiliesReady out ->
  emitRaw k r out = Js.Returned out' ->
  hasRedirect out' /\ rawFamiliesReady out'.
Proof.
  intros Hred Hready. unfold emitRaw.
  destruct (_ || _); [intros [= <-]; auto|].
  destruct (inheritedKey _); [discriminate|].
  set (p := Js.toLowerCase (Resource.protocol r)).
  destruct (out !! p) as [f0|] eqn:E.
  - rewrite E. destruct (Family.routers f0) eqn:Er; [|discriminate].
    destruct (Family.services f0) eqn:Es; [|discriminate].
    intros [= <-]. apply raw_write_inv; auto; try (eexists; reflexivity).
    destruct (decide (p = "http")) as [Hp|Hp]; [right|left; exact Hp].
    exists f0. split; [rewrite <- Hp; exact E|reflexivity].
  - rewrite lookup_insert_eq. simpl. intros [= <-].
    assert (Hp : p <> "http").
    { destruct Hred as (fh & Hh & _). intros Heq. rewrite Heq in E. congruence. }
    destruct (raw_write_inv p (Family.mk (Some ∅) (Some ∅) None None) out)
      as [Hred1 Hready1]; auto; try (eexists; reflexivity).
    apply raw_write_inv; auto; eexists; reflexivity.
Qed.

Lemma emitGroup_inv k r out out' :
  hasRedirect out -> rawFamiliesReady out ->
  emitGroup k r out = Js.Returned out' ->
  hasRedirect out' /\ rawFamiliesReady out'.
Proof.
  intros Hred Hready. unfold emitGroup.
  destruct (negb (Resource.enabled r)); [intros [= <-]; auto|].
  destruct (Resource.http r); [|apply emitRaw_inv; assumption].
  destruct (Resource.fullDomain r) as [fullDomain|]; [|intros [= <-]; auto].
  destruct (_ || _); [intros [= <-]; auto|].
  destruct Hred as (fh & Hh & Hd). rewrite Hh. intros [= <-]. split.
  - exists (emitHttp k r fullDomain fh). split; [apply lookup_insert_eq|].
    apply emitHttp_redirect. exact Hd.
  - intros q g Hq Hl. rewrite lookup_insert_ne in Hl by congruence.
    exact (Hready q g Hq Hl).
Qed.

Lemma emitAll_inv groups : forall out out',
  hasRedirect out -> rawFamiliesReady out ->
  emitAll groups out = Js.Returned out' ->
  hasRedirect out' /\ rawFamiliesReady out'.
Proof.
  induction groups as [|[k r] groups IH]; intros out out' Hred Hready; simpl.
  - intros [= <-]. auto.
  - unfold mbind, outcome_bind, Js.bind.
    destruct (emitGroup k r out) as [out1|] eqn:E; [|discriminate].
    destruct (emitGroup_inv _ _ _ _ Hred Hready E) as [Hred1 Hready1].
    apply IH; assumption.
Qed.

(** *** The loop completes on tcp and udp resources *)



(** *** The returned document *)


Lemma getTraefikConfig_no_group rows :
  aggregate rows = [] -> getTraefikConfig rows = Js.Returned ∅.
Proof. unfold getTraefikConfig. intros ->. reflexivity. Qed.

Lemma getTraefikConfig_groups rows :
  aggregate rows <> [] ->
  getTraefikConfig rows = emitAll (aggregate rows) initialOutput.
Proof.
  unfold getTraefikConfig. intros Hne.
  destruct (aggregate rows); [contradiction|reflexivity].
Qed.

Lemma returned_has_redirect rows out :
  aggregate rows <> [] -> getTraefikConfig rows = Js.Returned out -> hasRedirect out.
Proof.
  intros Hne. rewrite (getTraefikConfig_groups rows Hne). intros E.
  exact (proj1 (emitAll_inv _ _ _ initialOutput_redirect initialOutput_ready E)).
Qed.



(** C9, as amended. Aggregation yields no group exactly when the validator
    rejects every row (an empty row set included); then the function returns
    the empty object. As soon as one group survives aggregation the result is
    never the empty object, even if the loop then skips every group. *)
Theorem C9_empty_object_iff_no_group rows :
  (aggregate rows = [] <-> Forall (fun row => validRow row = false) rows)
  /\ (aggregate rows = [] -> getTraefikConfig rows = Js.Returned ∅)
  /\ (aggregate rows <> [] -> getTraefikConfig rows <> Js.Returned ∅).
Proof.
  split; [apply aggregate_empty_iff|].
  split; [apply getTraefikConfig_no_group|].
  intros Hne Heq.
  destruct (returned_has_redirect rows ∅ Hne Heq) as (f & Hf & _).
  rewrite lookup_empty in Hf. discriminate.
Qed.

End Document.

(** ** The synthesizer on sample rows *)


(** A validator that rejects the only row leaves no group and the empty
    object; one that accepts it leaves a group and a non-empty document. *)
Lemma C9_empty_object_iff_no_group_witness :
  getTraefikConfig Sample.sanitize Sample.rejectAll Sample.rewriteOne
    Sample.noHeaders (Sample.traefik None)
    [Sample.httpRow 1 (Some "/a") (Some "prefix") None None] = Js.Returned ∅
  /\ getTraefikConfig Sample.sanitize Sample.acceptAll Sample.rewriteOne
       Sample.noHeaders (Sample.traefik None)
       [Sample.httpRow 1 (Some "/a") (Some "prefix") None None] <> Js.Returned ∅.
Proof.
  split.
  - refine (proj1 (proj2 (C9_empty_object_iff_no_group Sample.sanitize Sample.rejectAll
                            Sample.rewriteOne Sample.noHeaders (Sample.traefik None)
                            [Sample.httpRow 1 (Some "/a") (Some "prefix") None None])) _).
    reflexivity.
  - refine (proj2 (proj2 (C9_empty_object_iff_no_group Sample.sanitize Sample.acceptAll
                            Sample.rewriteOne Sample.noHeaders (Sample.traefik None)
                            [Sample.httpRow 1 (Some "/a") (Some "prefix") None None])) _).
    vm_compute. discriminate.
Defined.

(** C9, counterexample to the claim as stated: the only group is an HTTP
    resource without a domain id. The loop skips it, and the function
    returns the document it started from, which has an [http] section. *)
Lemma C9_skipped_group_not_empty_object :
  getTraefikConfig Sample.sanitize Sample.acceptAll Sample.rewriteOne
    Sample.noHeaders (Sample.traefik None)
    [Sample.row true None "tcp" 1 None None None None] = Js.Returned initialOutput
  /\ initialOutput !! "http" = Some Sample.freshHttp
  /\ initialOutput <> ∅.
Proof.
  split; [reflexivity|]. split; [reflexivity|].
  intros H. apply (f_equal (fun m : ConfigOutput => m !! "http")) in H.
  rewrite lookup_empty in H. discriminate.
Qed.

(** C5 at its failing input. Two enabled local targets of one group resolve
    to the same endpoint. The HTTP branch emits it once; the non-HTTP branch
    emits it twice, and so does the document built from two such rows of a
    tcp resource. *)
Theorem C5_raw_servers_keep_duplicates :
  httpServers [Sample.target 1 "local" true "10.0.0.5" 8080;
               Sample.target 2 "local" true "10.0.0.5" 8080]
  = [Some (Url "http://10.0.0.5:8080")]
  /\ rawServers [Sample.target 1 "local" true "10.0.0.5" 8080;
                 Sample.target 2 "local" true "10.0.0.5" 8080]
     = [Some (Address "10.0.0.5:8080"); Some (Address "10.0.0.5:8080")]
  /\ exists out f S,
       getTraefikConfig Sample.sanitize Sample.acceptAll Sample.rewriteOne
         Sample.noHeaders (Sample.traefik None)
         [Sample.row false None "tcp" 1 None None None None;
          Sample.row false None "tcp" 2 None None None None] = Js.Returned out
       /\ out !! "tcp" = Some f
       /\ servicesOf f !! "1-app-service" = Some S
       /\ Service.servers S
          = [Some (Address "10.0.0.5:8080"); Some (Address "10.0.0.5:8080")].
Proof.
  split; [reflexivity|]. split; [reflexivity|].
  eexists _, _, _. split; [reflexivity|]. split; [reflexivity|].
  split; reflexivity.
Qed.

(** The spec's first example: one SSL resource with one healthy local
    target. *)
Example one_http_resource :
  exists out f,
    getTraefikConfig Sample.sanitize Sample.acceptAll Sample.rewriteOne
      Sample.noHeaders (Sample.traefik None)
      [Sample.httpRow 1 None None None None] = Js.Returned out
    /\ out !! "http" = Some f
    /\ routersOf f
       = {[ "1-app-router" :=
              {| Router.entryPoints := ["websecure"];
                 Router.middlewares := Some ["badger"];
                 Router.service := "1-app-service";
                 Router.rule := Some "Host(`example.com`)";
                 Router.priority := Some 100;
                 Router.tls := Some {| Tls.certResolver := Some "letsencrypt";
                                       Tls.domains := None |} |};
            "1-app-router-redirect" :=
              {| Router.entryPoints := ["web"];
                 Router.middlewares := Some ["redirect-to-https"];
                 Router.service := "1-app-service";
                 Router.rule := Some "Host(`example.com`)";
                 Router.priority := Some 100;
                 Router.tls := None |} ]}
    /\ servicesOf f
       = {[ "1-app-service" :=
              {| Service.servers := [Some (Url "http://10.0.0.5:8080")];
                 Service.passHostHeader := None;
                 Service.sticky := None;
                 Service.serversTransport := None |} ]}.
Proof. eexists _, _. split; [reflexivity|]. split; [reflexivity|]. split; reflexivity. Qed.

(** A TCP resource alone: a [tcp] family next to the bare [http] section. *)
Example one_tcp_resource :
  exists out f,
    getTraefikConfig Sample.sanitize Sample.acceptAll Sample.rewriteOne
      Sample.noHeaders (Sample.traefik None)
      [Sample.row false None "TCP" 1 None None None None] = Js.Returned out
    /\ out !! "http" = Some Sample.freshHttp
    /\ out !! "tcp" = Some f
    /\ routersOf f !! "1-app-router"
       = Some {| Router.entryPoints := ["tcp-5432"];
                 Router.middlewares := None;
                 Router.service := "1-app-service";
                 Router.rule := Some "HostSNI(`*`)";
                 Router.priority := None;
                 Router.tls := None |}.
Proof. eexists _, _. split; [reflexivity|]. split; [reflexivity|]. split; reflexivity. Qed.

(** A non-HTTP resource whose protocol reads [http] finds the http section
    without [routers]: the write throws. *)
Example raw_resource_named_http_throws :
  getTraefikConfig Sample.sanitize Sample.acceptAll Sample.rewriteOne
    Sample.noHeaders (Sample.traefik None)
    [Sample.row false None "HTTP" 1 None None None None]
  = Js.Thrown "cannot set properties of undefined".
Proof. reflexivity. Qed.

(** The spec's second example: the same resource in forced maintenance. Only
    the maintenance router, its twin and the maintenance service are there. *)
Example forced_maintenance_document :
  exists out f,
    getTraefikConfig Sample.sanitize Sample.acceptAll Sample.rewriteOne
      Sample.noHeaders (Sample.traefik None)
      [Sample.inMaintenance (Some "forced") (Sample.httpRow 1 None None None None)]
    = Js.Returned out
    /\ out !! "http" = Some f
    /\ routersOf f
       = {[ "1-maintenance-router" :=
              {| Router.entryPoints := ["websecure"];
                 Router.middlewares := None;
                 Router.service := "1-maintenance-service";
                 Router.rule := Some "Host(`example.com`)";
                 Router.priority := Some 2000;
                 Router.tls := Some {| Tls.certResolver := Some "letsencrypt";
                                       Tls.domains := None |} |};
            "1-maintenance-router-redirect" :=
              {| Router.entryPoints := ["web"];
                 Router.middlewares := Some ["redirect-to-https"];
                 Router.service := "1-maintenance-service";
                 Router.rule := Some "Host(`example.com`)";
                 Router.priority := Some 2000;
                 Router.tls := None |} ]}
    /\ servicesOf f
       = {[ "1-maintenance-service" :=
              {| Service.servers := [Some (Url "http://pangolin:8888")];
                 Service.passHostHeader := Some true;
                 Service.sticky := None;
                 Service.serversTransport := None |} ]}.
Proof. eexists _, _. split; [reflexivity|]. split; [reflexivity|]. split; reflexivity. Qed.

(** An automatic group flips with its targets: without any target the
    maintenance page shows; one eligible target brings the normal route
    back. *)
Example automatic_mode_flips :
  showMaintenancePage
    (Sample.httpGroup "example.com" None true true (Some "automatic") 100 None None
       []) = true
  /\ showMaintenancePage
       (Sample.httpGroup "example.com" None true true (Some "automatic") 100 None None
          [Sample.target 1 "local" true "10.0.0.5" 8080]) = false.
Proof. split; reflexivity. Qed.

(** ** The maintenance page *)

Section MaintenancePage.

Implicit Types (c : ascii) (a b text : string).

Lemma countChar_app c a b :
  countChar c (a +:+ b) = (countChar c a + countChar c b)%nat.
Proof.
  induction a as [|d a IH]; [reflexivity|].
  change (String d a +:+ b) with (String d (a +:+ b)). simpl. rewrite IH. lia.
Qed.

Lemma escapeChar_cases c :
  (c = "&"%char /\ escapeChar c = "&amp;")
  \/ (c = "<"%char /\ escapeChar c = "&lt;")
  \/ (c = ">"%char /\ escapeChar c = "&gt;")
  \/ (c = dqChar /\ escapeChar c = "&quot;")
  \/ (c = "'"%char /\ escapeChar c = "&#039;")
  \/ (c <> "&"%char /\ c <> "<"%char /\ c <> ">"%char /\ c <> dqChar
      /\ c <> "'"%char /\ escapeChar c = String c EmptyString).
Proof.
  unfold escapeChar.
  destruct (Ascii.eqb_spec c "&"); [auto|].
  destruct (Ascii.eqb_spec c "<"); [auto|].
  destruct (Ascii.eqb_spec c ">"); [auto 6|].
  destruct (Ascii.eqb_spec c dqChar); [auto 6|].
  destruct (Ascii.eqb_spec c "'"); [auto 8|].
  do 5 right. auto 8.
Qed.

Lemma escapeHtml_cons c text :
  escapeHtml (String c text) = escapeChar c +:+ escapeHtml text.
Proof. reflexivity. Qed.

Lemma escapeHtml_count c text :
  c = "<"%char \/ c = ">"%char \/ c = dqChar \/ c = "'"%char ->
  countChar c (escapeHtml text) = O.
Proof.
  intros Hc. induction text as [|d text IH]; [reflexivity|].
  rewrite escapeHtml_cons, countChar_app, IH.
  destruct (escapeChar_cases d)
    as [[-> ->]|[[-> ->]|[[-> ->]|[[-> ->]|[[-> ->]|(Ha & Hl & Hg & Hq & Hp & ->)]]]]];
    try (destruct Hc as [->|[->|[->| ->]]]; reflexivity).
  simpl. destruct (Ascii.eqb_spec d c) as [->|Hne]; [|reflexivity].
  destruct Hc as [->|[->|[->| ->]]]; contradiction.
Qed.

(** X4. Escaped text contains no angle bracket, no double quote and no
    apostrophe, whatever the input. *)
Theorem escapeHtml_no_markup text :
  countChar "<" (escapeHtml text) = O
  /\ countChar ">" (escapeHtml text) = O
  /\ countChar dqChar (escapeHtml text) = O
  /\ countChar "'" (escapeHtml text) = O.
Proof.
  split; [apply escapeHtml_count; auto|].
  split; [apply escapeHtml_count; auto|].
  split; apply escapeHtml_count; auto.
Qed.

Lemma escapeHtml_inj a : forall b, escapeHtml a = escapeHtml b -> a = b.
Proof.
  induction a as [|c a IH]; intros [|d b].
  - reflexivity.
  - rewrite escapeHtml_cons.
    destruct (escapeChar_cases d)
      as [[-> ->]|[[-> ->]|[[-> ->]|[[-> ->]|[[-> ->]|(_ & _ & _ & _ & _ & ->)]]]]];
      discriminate.
  - rewrite escapeHtml_cons.
    destruct (escapeChar_cases c)
      as [[-> ->]|[[-> ->]|[[-> ->]|[[-> ->]|[[-> ->]|(_ & _ & _ & _ & _ & ->)]]]]];
      discriminate.
  - rewrite !escapeHtml_cons.
    destruct (escapeChar_cases c)
      as [[-> ->]|[[-> ->]|[[-> ->]|[[-> ->]|[[-> ->]|(Hc & _ & _ & _ & _ & ->)]]]]];
      destruct (escapeChar_cases d)
        as [[-> ->]|[[-> ->]|[[-> ->]|[[-> ->]|[[-> ->]|(Hd & _ & _ & _ & _ & ->)]]]]];
      simpl; intros H; try discriminate H;
      try (injection H as H; f_equal; apply IH; exact H);
      try (injection H as H1 H; congruence).
    injection H as -> H. f_equal. apply IH. exact H.
Qed.

(** X5. Escaping loses nothing: two different texts never escape to the
    same text. *)
Theorem escapeHtml_distinguishes a b : a <> b -> escapeHtml a <> escapeHtml b.
Proof. intros Hne Heq. apply Hne, escapeHtml_inj, Heq. Qed.

Lemma escapeHtml_truthy (e : option string) :
  Js.truthyS e = true -> Js.truthyS (Some (escapeHtml (Js.orEmpty e))) = true.
Proof.
  destruct e as [[|c e]|]; try discriminate. intros _. simpl Js.orEmpty.
  rewrite escapeHtml_cons.
  destruct (escapeChar_cases c)
    as [[-> ->]|[[-> ->]|[[-> ->]|[[-> ->]|[[-> ->]|(_ & _ & _ & _ & _ & ->)]]]]];
    reflexivity.
Qed.

(** X6. The markup of the page does not depend on the texts put into it:
    two pages that both show, or both hide, the estimated time have the
    same number of angle brackets, double quotes and apostrophes. *)
Theorem maintenance_page_markup_fixed
    (title message estimatedTime title' message' estimatedTime' : option string) :
  Js.truthyS estimatedTime = Js.truthyS estimatedTime' ->
  forall c, c = "<"%char \/ c = ">"%char \/ c = dqChar \/ c = "'"%char ->
  countChar c (generateMaintenanceHTML title message estimatedTime)
  = countChar c (generateMaintenanceHTML title' message' estimatedTime').
Proof.
  intros He c Hc.
  assert (Hesc : forall text, countChar c (escapeHtml text) = O)
    by (intros text; apply escapeHtml_count; exact Hc).
  unfold generateMaintenanceHTML.
  destruct (Js.truthyS estimatedTime) eqn:E; symmetry in He.
  - rewrite He, (escapeHtml_truthy _ E), (escapeHtml_truthy _ He).
    simpl Js.orEmpty. rewrite !countChar_app, !Hesc. reflexivity.
  - rewrite He. simpl Js.truthyS. cbv iota.
    rewrite !countChar_app, !Hesc. reflexivity.
Qed.

End MaintenancePage.

(** Text that is already escaped is escaped again, not taken for the
    character it stands for. *)
Lemma escapeHtml_distinguishes_witness : escapeHtml "<" <> escapeHtml "&lt;".
Proof. apply escapeHtml_distinguishes. discriminate. Defined.

(** A page with a hostile title and a page with the default texts. *)
Lemma maintenance_page_markup_fixed_witness :
  countChar "<" (generateMaintenanceHTML (Some "<script>alert(1)</script>") None
                   (Some "10 minutes"))
  = countChar "<" (generateMaintenanceHTML None None (Some "soon")).
Proof.
  apply maintenance_page_markup_fixed; [reflexivity|left; reflexivity].
Defined.

Example escaped_title :
  escapeHtml "<b>Tom & 'Jerry'</b>"
  = "&lt;b&gt;Tom &amp; &#039;Jerry&#039;&lt;/b&gt;".
Proof. reflexivity. Qed.

(** ** The aggregator in closed form *)

Section AggregationClosedForm.

Variable sanitize : option string -> option string.
Variable validatePathRewriteConfig :
  option string -> option string -> option string -> option string -> bool.

Local Abbreviation key := (key sanitize).
Local Abbreviation newGroup := (newGroup sanitize).
Local Abbreviation addRow := (addRow sanitize validatePathRewriteConfig).
Local Abbreviation aggregate := (aggregate sanitize validatePathRewriteConfig).
Local Abbreviation validRow := (validRow validatePathRewriteConfig).
Local Abbreviation rowsOfKey := (rowsOfKey sanitize).
Local Abbreviation fromFirstAccepted := (fromFirstAccepted validatePathRewriteConfig).
Local Abbreviation groupOfRows := (groupOfRows sanitize).

Implicit Types (m : list (option string * Resource.t)) (row : DbRow.t).
Implicit Types (rows : list DbRow.t) (k : option string) (r : Resource.t).
Implicit Types (tg : Target.t).

Lemma mapGet_mapPush k k' tg m :
  mapGet k' (mapPush k tg m)
  = if decide (k' = k) then Resource.pushTarget tg <$> mapGet k m else mapGet k' m.
Proof.
  induction m as [|[k0 r0] m IH]; simpl.
  - destruct (decide (k' = k)); reflexivity.
  - destruct (decide (k0 = k)) as [->|Hne]; simpl.
    + destruct (decide (k = k')) as [->|Hne'].
      * destruct (decide (k' = k')); [reflexivity|contradiction].
      * destruct (decide (k' = k)); [congruence|reflexivity].
    + destruct (decide (k0 = k')) as [->|Hne'].
      * destruct (decide (k' = k)); [contradiction|reflexivity].
      * exact IH.
Qed.

Lemma mapGet_snoc k k' r m :
  mapGet k' (m ++ [(k, r)])
  = match mapGet k' m with
    | Some r' => Some r'
    | None => if decide (k = k') then Some r else None
    end.
Proof.
  induction m as [|[k0 r0] m IH]; simpl; [reflexivity|].
  destruct (decide (k0 = k')); [reflexivity|exact IH].
Qed.

Lemma mapGet_addRow k m row :
  mapGet k (addRow m row)
  = if decide (key row = k)
    then match mapGet k m with
         | Some r => Some (Resource.pushTarget (targetOf row) r)
         | None => if validRow row
                   then Some (Resource.pushTarget (targetOf row) (newGroup row))
                   else None
         end
    else mapGet k m.
Proof.
  unfold addRow, mapHas, validRow.
  destruct (mapGet (key row) m) as [r0|] eqn:E.
  - rewrite mapGet_mapPush.
    destruct (decide (k = key row)) as [->|Hne].
    + destruct (decide (key row = key row)); [|contradiction]. rewrite E. reflexivity.
    + destruct (decide (key row = k)); [congruence|reflexivity].
  - destruct (validatePathRewriteConfig _ _ _ _).
    + rewrite mapGet_mapPush, !mapGet_snoc.
      destruct (decide (k = key row)) as [->|Hne].
      * destruct (decide (key row = key row)); [|contradiction]. rewrite E.
        reflexivity.
      * destruct (decide (key row = k)); [congruence|].
        destruct (mapGet k m); reflexivity.
    + destruct (decide (key row = k)) as [<-|Hne]; [rewrite E|]; reflexivity.
Qed.

Lemma rowsOfKey_cons k row rows :
  rowsOfKey k (row :: rows)
  = if decide (key row = k) then row :: rowsOfKey k rows else rowsOfKey k rows.
Proof.
  unfold rowsOfKey. simpl.
  destruct (decide (key row = k)) as [H|H].
  - rewrite bool_decide_eq_true_2 by exact H. reflexivity.
  - rewrite bool_decide_eq_false_2 by exact H. reflexivity.
Qed.

Lemma fold_addRow_get k rows : forall m,
  mapGet k (fold_left addRow rows m)
  = match mapGet k m with
    | Some r =>
        Some (Resource.withTargets
                (Resource.targets r ++ List.map targetOf (rowsOfKey k rows)) r)
    | None => groupOfRows (fromFirstAccepted (rowsOfKey k rows))
    end.
Proof.
  induction rows as [|row rows IH]; intros m.
  - simpl. destruct (mapGet k m) as [r|]; [|reflexivity].
    rewrite app_nil_r. destruct r; reflexivity.
  - simpl fold_left. rewrite IH, mapGet_addRow, rowsOfKey_cons.
    destruct (decide (key row = k)) as [Hk|Hk]; [|reflexivity].
    destruct (mapGet k m) as [r|].
    + simpl. rewrite <- app_assoc. reflexivity.
    + simpl. unfold validRow. destruct (validatePathRewriteConfig _ _ _ _); reflexivity.
Qed.

(** X8. The group stored under a key is made of the rows with that key,
    from the first one the validator accepts: it has the scalar fields of
    that row and the targets of it and of every later row with the key, in
    row order. Rows before it are dropped; if none is accepted there is no
    group. *)
Theorem aggregate_closed_form k rows :
  mapGet k (aggregate rows) = groupOfRows (fromFirstAccepted (rowsOfKey k rows)).
Proof. unfold aggregate. rewrite fold_addRow_get. reflexivity. Qed.

Lemma mapPush_keys k tg m : (mapPush k tg m).*1 = m.*1.
Proof.
  induction m as [|[k0 r0] m IH]; [reflexivity|]. simpl.
  destruct (decide (k0 = k)); simpl; [reflexivity|]. f_equal. exact IH.
Qed.

Lemma mapGet_None_keys k m : mapGet k m = None <-> ~ In k m.*1.
Proof.
  induction m as [|[k0 r0] m IH]; simpl; [tauto|].
  destruct (decide (k0 = k)) as [->|Hne].
  - split; [discriminate|]. intros H. exfalso. apply H. left. reflexivity.
  - rewrite IH. split; [intros H [Heq|Hin]; [contradiction|exact (H Hin)]|tauto].
Qed.

Lemma mapGet_In k r m : mapGet k m = Some r -> In (k, r) m.
Proof.
  induction m as [|[k0 r0] m IH]; simpl; [discriminate|].
  destruct (decide (k0 = k)) as [->|Hne]; [intros [= ->]; left; reflexivity|].
  intros H. right. exact (IH H).
Qed.

Lemma In_mapGet k r m : NoDup m.*1 -> In (k, r) m -> mapGet k m = Some r.
Proof.
  induction m as [|[k0 r0] m IH]; simpl; [tauto|].
  intros Hnd [[= -> ->]|Hin].
  - destruct (decide (k = k)); [reflexivity|contradiction].
  - apply NoDup_cons in Hnd as [Hnotin Hnd'].
    destruct (decide (k0 = k)) as [->|Hne]; [|exact (IH Hnd' Hin)].
    exfalso. apply Hnotin, list_elem_of_In. change k with (k, r).1.
    apply in_map. exact Hin.
Qed.

Lemma addRow_keys_NoDup m row : NoDup m.*1 -> NoDup (addRow m row).*1.
Proof.
  intros Hnd. unfold addRow, mapHas.
  destruct (mapGet (key row) m) eqn:E; cbv beta iota;
    [rewrite mapPush_keys; exact Hnd|].
  destruct (validatePathRewriteConfig _ _ _ _); [|exact Hnd].
  rewrite mapPush_keys, fmap_app. simpl.
  apply mapGet_None_keys in E. apply NoDup_app. split; [exact Hnd|].
  split; [|apply NoDup_singleton].
  intros x Hx Hin. apply list_elem_of_In in Hx.
  apply list_elem_of_singleton in Hin. subst x. exact (E Hx).
Qed.

Lemma aggregate_keys_NoDup rows : NoDup (aggregate rows).*1.
Proof.
  unfold aggregate.
  assert (H : forall m, NoDup m.*1 -> NoDup (fold_left addRow rows m).*1).
  { induction rows as [|row rows IH]; intros m Hm; [exact Hm|].
    simpl. apply IH, addRow_keys_NoDup, Hm. }
  apply H. apply NoDup_nil_2.
Qed.

Lemma fromFirstAccepted_nonempty rows :
  fromFirstAccepted rows <> [] <-> exists row, In row rows /\ validRow row = true.
Proof.
  induction rows as [|row rows IH]; simpl.
  - split; [contradiction|intros (row & [] & _)].
  - destruct (validRow row) eqn:V.
    + split; [intros _; exists row; auto|discriminate].
    + rewrite IH. split.
      * intros (row' & Hin & Hv). eauto.
      * intros (row' & [<-|Hin] & Hv); [congruence|eauto].
Qed.

(** X7. The keys of the group map are pairwise distinct, a pair is in the
    map exactly when a lookup of its key finds it, and a key has a group
    exactly when the validator accepts at least one row with that key. *)
Theorem aggregate_keys rows :
  NoDup (aggregate rows).*1
  /\ (forall k r, In (k, r) (aggregate rows) <-> mapGet k (aggregate rows) = Some r)
  /\ (forall k, In k (aggregate rows).*1
                <-> exists row, In row rows /\ key row = k /\ validRow row = true).
Proof.
  pose proof (aggregate_keys_NoDup rows) as Hnd.
  split; [exact Hnd|]. split.
  - intros k r. split; [apply In_mapGet; exact Hnd|apply mapGet_In].
  - intros k.
    assert (Hsome : In k (aggregate rows).*1 <-> mapGet k (aggregate rows) <> None).
    { rewrite mapGet_None_keys. split; [tauto|].
      intros H. destruct (in_dec (decide_rel eq) k (aggregate rows).*1); tauto. }
    rewrite Hsome. unfold aggregate at 1. rewrite fold_addRow_get. simpl mapGet.
    cbv beta iota.
    assert (Hg : forall l, groupOfRows l <> None <-> l <> []).
    { intros [|row l]; simpl; split; congruence. }
    rewrite Hg, fromFirstAccepted_nonempty. unfold rowsOfKey.
    split; intros (row & Hin & Hv).
    + apply filter_In in Hin as [Hin Hk]. apply bool_decide_eq_true in Hk. eauto.
    + destruct Hv as [Hk Hv]. exists row. split; [|exact Hv].
      apply filter_In. split; [exact Hin|]. apply bool_decide_eq_true. exact Hk.
Qed.

End AggregationClosedForm.

(** ** The two backend lists side by side *)

Section BackendLists.

Implicit Types (t : Target.t) (targets : list Target.t).

(** X9. The filter of the HTTP branch is the filter of the non-HTTP branch
    plus the demand for a method on the three known site types: every
    target fit for an HTTP service is fit for a TCP/UDP one, and a target
    without method is fit for the latter only. *)
Theorem http_filter_is_raw_filter_with_method targets t :
  httpServerFilter targets t
  = rawServerFilter targets t
    && (negb (knownSiteType t) || Js.truthyS (Target.method t)).
Proof.
  unfold httpServerFilter, rawServerFilter, knownSiteType.
  destruct (Target.enabled t); simpl; [|reflexivity].
  destruct (anySitesOnline targets && negb (siteOnline t)); [reflexivity|].
  destruct (siteTypeIs t "local" || siteTypeIs t "wireguard"); simpl.
  - destruct (Js.truthyS (Target.ip t)), (Js.truthyZ (Target.port t)),
      (Js.truthyS (Target.method t)); reflexivity.
  - destruct (siteTypeIs t "newt"); simpl; [|reflexivity].
    destruct (Js.truthyZ (Target.internalPort t)), (Js.truthyS (Target.method t)),
      (Js.truthyS (Site.subnet (Target.site t))); reflexivity.
Qed.

Lemma rawServerOf_None t : rawServerOf t = None <-> knownSiteType t = false.
Proof.
  unfold rawServerOf, knownSiteType.
  destruct (siteTypeIs t "local" || siteTypeIs t "wireguard"); simpl;
    [split; discriminate|].
  destruct (siteTypeIs t "newt"); split; (reflexivity || discriminate).
Qed.

Lemma rawServerFilter_other t targets :
  knownSiteType t = false ->
  rawServerFilter targets t
  = Target.enabled t && negb (anySitesOnline targets && negb (siteOnline t)).
Proof.
  unfold rawServerFilter, knownSiteType. intros H.
  apply orb_false_iff in H as [-> ->].
  destruct (Target.enabled t); simpl; [|reflexivity].
  destruct (anySitesOnline targets && negb (siteOnline t)); reflexivity.
Qed.

(** X10. Every entry of an HTTP server list is a defined url. A TCP/UDP
    server list holds an undefined entry exactly when the group has an
    enabled target on a site of a type other than local, wireguard and newt
    that the online preference lets pass. *)
Theorem undefined_server_entries targets :
  (forall v, In v (httpServers targets) -> exists u, v = Some (Url u))
  /\ (In None (rawServers targets)
      <-> exists t, In t targets /\ Target.enabled t = true
                    /\ knownSiteType t = false
                    /\ (anySitesOnline targets = true -> siteOnline t = true)).
Proof.
  split.
  - intros v Hv. apply httpServers_In in Hv as (t & s & -> & _ & _ & Hof).
    apply httpServerOf_url in Hof as [u ->]. eauto.
  - unfold rawServers. rewrite in_map_iff. split.
    + intros (t & Hof & Hin). apply filter_In in Hin as [Hin Hf].
      apply rawServerOf_None in Hof. rewrite (rawServerFilter_other t targets Hof) in Hf.
      apply andb_true_iff in Hf as [Hen Hon]. exists t. repeat split; auto.
      intros Hany. rewrite Hany in Hon. destruct (siteOnline t); [reflexivity|discriminate].
    + intros (t & Hin & Hen & Hk & Hon). exists t.
      split; [apply rawServerOf_None; exact Hk|]. apply filter_In. split; [exact Hin|].
      rewrite (rawServerFilter_other t targets Hk), Hen. simpl.
      destruct (anySitesOnline targets); [|reflexivity].
      rewrite (Hon eq_refl). reflexivity.
Qed.

End BackendLists.

Example raw_list_with_undefined_entry :
  rawServers [Sample.target 1 "local" true "10.0.0.5" 8080;
              Sample.target 2 "other" true "10.0.0.6" 8080]
  = [Some (Address "10.0.0.5:8080"); None].
Proof. reflexivity. Qed.

(** ** More on what the normal branch writes *)

Section NormalBranch.

Variable createPathRewriteMiddleware :
  string -> string -> string -> string -> string -> option RewriteResult.t.
Variable parseHeaders : string -> option (list (string * string)).
Variable traefik : Traefik.t.

Local Abbreviation emitNormal := (emitNormal createPathRewriteMiddleware parseHeaders traefik).
Local Abbreviation rewriteStep := (rewriteStep createPathRewriteMiddleware).
Local Abbreviation headersStep := (headersStep parseHeaders).
Local Abbreviation headersObj := (headersObj parseHeaders).
Local Abbreviation normalRouter := (normalRouter traefik).
Local Abbreviation normalRedirect := (normalRedirect traefik).

Implicit Types (k : option string) (r : Resource.t) (f : Family.t).
Implicit Types (fullDomain n : string) (st : Family.t * list string).

Lemma emitNormal_main_router k r fullDomain f :
  exists mws,
    routersOf (emitNormal k r fullDomain f) !! routerName k r
    = Some (normalRouter k r fullDomain mws).
Proof.
  destruct (emitNormal_routers createPathRewriteMiddleware parseHeaders traefik
              k r fullDomain f) as [mws ->].
  exists mws. destruct (Resource.ssl r).
  - rewrite lookup_insert_ne by apply redirectOf_ne. apply lookup_insert_eq.
  - apply lookup_insert_eq.
Qed.




(** *** The middleware chain *)





(** X14. The header set of a group. A host-header override is always the
    value of [Host], whatever the parsed header list says. When the header
    list does not parse and there is no override the set is empty, and the
    headers block changes neither the family nor the chain. *)
Theorem host_header_override k r st :
  (forall h, Resource.setHostHeader r = Some h -> Js.nonEmpty h = true ->
             headersObj r !! "Host" = Some h)
  /\ ((forall text, Resource.headers r = Some text -> parseHeaders text = None) ->
      Js.truthyS (Resource.setHostHeader r) = false ->
      headersObj r = ∅ /\ headersStep k r st = st).
Proof.
  split.
  - intros h Hh Hne. unfold headersObj. rewrite Hh.
    destruct h; [discriminate|]. simpl. apply lookup_insert_eq.
  - intros Hparse Hhost.
    assert (Hobj : headersObj r = ∅).
    { unfold headersObj. rewrite Hhost.
      destruct (Resource.headers r) as [text|]; [|reflexivity].
      destruct (Js.nonEmpty text); [|reflexivity].
      rewrite (Hparse text eq_refl). reflexivity. }
    split; [exact Hobj|]. unfold headersStep. rewrite Hobj, Hhost.
    destruct (Js.truthyS (Resource.headers r)); reflexivity.
Qed.

End NormalBranch.

(** ** More on the returned document *)

Section DocumentShape.

Variable sanitize : option string -> option string.
Variable validatePathRewriteConfig :
  option string -> option string -> option string -> option string -> bool.
Variable createPathRewriteMiddleware :
  string -> string -> string -> string -> string -> option RewriteResult.t.
Variable parseHeaders : string -> option (list (string * string)).
Variable traefik : Traefik.t.

Local Abbreviation aggregate := (aggregate sanitize validatePathRewriteConfig).
Local Abbreviation emitHttp := (emitHttp createPathRewriteMiddleware parseHeaders traefik).
Local Abbreviation emitNormal := (emitNormal createPathRewriteMiddleware parseHeaders traefik).
Local Abbreviation emitGroup := (emitGroup createPathRewriteMiddleware parseHeaders traefik).
Local Abbreviation emitAll := (emitAll createPathRewriteMiddleware parseHeaders traefik).
Local Abbreviation emitMaintenance := (emitMaintenance traefik).
Local Abbreviation emitRaw := (emitRaw traefik).
Local Abbreviation getTraefikConfig :=
  (getTraefikConfig sanitize validatePathRewriteConfig createPathRewriteMiddleware
     parseHeaders traefik).

Implicit Types (k : option string) (r : Resource.t) (f : Family.t).
Implicit Types (out : ConfigOutput) (n p : string).
Implicit Types (groups : list (option string * Resource.t)) (rows : list DbRow.t).

(** *** Routers and their services *)

Lemma servicesResolve_step f f' (s : string) :
  servicesResolve f ->
  (forall n, is_Some (servicesOf f !! n) -> is_Some (servicesOf f' !! n)) ->
  is_Some (servicesOf f' !! s) ->
  (forall n R, routersOf f' !! n = Some R ->
               routersOf f !! n = Some R \/ Router.service R = s) ->
  servicesResolve f'.
Proof.
  intros Hres Hmono Hs Hrouters n R Hl.
  destruct (Hrouters n R Hl) as [Hold| ->]; [|exact Hs].
  apply Hmono. exact (Hres n R Hold).
Qed.

Lemma insert_service_mono (m : gmap string Service.t) s (S : Service.t) n :
  is_Some (m !! n) -> is_Some (<[s := S]> m !! n).
Proof. intros H. apply lookup_insert_is_Some'. right. exact H. Qed.

Lemma emitMaintenance_resolves k r fullDomain f :
  servicesResolve f -> servicesResolve (emitMaintenance k r fullDomain f).
Proof.
  intros Hres. apply (servicesResolve_step f _ (maintenanceServiceName k) Hres).
  - intros n. rewrite emitMaintenance_services. apply insert_service_mono.
  - rewrite emitMaintenance_services, lookup_insert_eq. eauto.
  - intros n R. rewrite emitMaintenance_routers.
    destruct (Resource.ssl r); rewrite ?lookup_insert;
      repeat case_decide; intros Hl; try (injection Hl as <-); auto.
Qed.

Lemma emitNormal_resolves k r fullDomain f :
  servicesResolve f -> servicesResolve (emitNormal k r fullDomain f).
Proof.
  intros Hres. apply (servicesResolve_step f _ (serviceName k r) Hres).
  - intros n.
    rewrite (emitNormal_services createPathRewriteMiddleware parseHeaders traefik).
    apply insert_service_mono.
  - rewrite (emitNormal_services createPathRewriteMiddleware parseHeaders traefik),
      lookup_insert_eq. eauto.
  - intros n R.
    destruct (emitNormal_routers createPathRewriteMiddleware parseHeaders traefik
                k r fullDomain f) as [mws ->].
    destruct (Resource.ssl r); rewrite ?lookup_insert;
      repeat case_decide; intros Hl; try (injection Hl as <-); auto.
Qed.

Lemma emitHttp_resolves k r fullDomain f :
  servicesResolve f -> servicesResolve (emitHttp k r fullDomain f).
Proof.
  intros Hres. unfold emitHttp.
  assert (Hinit : servicesResolve (initRoutersServices f)) by exact Hres.
  destruct (showMaintenancePage r);
    [apply emitMaintenance_resolves|apply emitNormal_resolves]; exact Hinit.
Qed.

Lemma raw_write_resolves k r (protocol : string) f :
  servicesResolve f ->
  servicesResolve (setService (serviceName k r) (rawService traefik r protocol)
                     (setRouter (routerName k r) (rawRouter k r protocol) f)).
Proof.
  intros Hres. apply (servicesResolve_step f _ (serviceName k r) Hres).
  - intros n. rewrite servicesOf_setService, servicesOf_setRouter.
    apply insert_service_mono.
  - rewrite servicesOf_setService, lookup_insert_eq. eauto.
  - intros n R. rewrite routersOf_setService, routersOf_setRouter, lookup_insert.
    case_decide; intros Hl; [injection Hl as <-|]; auto.
Qed.

Lemma insert_resolves p f out :
  servicesResolve f -> documentResolves out -> documentResolves (<[p := f]> out).
Proof.
  intros Hf Hout q g. rewrite lookup_insert. case_decide.
  - intros [= <-]. exact Hf.
  - apply Hout.
Qed.

Lemma emitGroup_resolves k r out out' :
  documentResolves out -> emitGroup k r out = Js.Returned out' ->
  documentResolves out'.
Proof.
  intros Hout. unfold emitGroup.
  destruct (negb (Resource.enabled r)); [intros [= <-]; exact Hout|].
  destruct (Resource.http r).
  - destruct (Resource.fullDomain r) as [fullDomain|]; [|intros [= <-]; exact Hout].
    destruct (_ || _); [intros [= <-]; exact Hout|].
    destruct (out !! "http") as [f|] eqn:E; [|discriminate].
    intros [= <-]. apply insert_resolves; [|exact Hout].
    apply emitHttp_resolves. exact (Hout _ _ E).
  - unfold emitRaw. destruct (_ || _); [intros [= <-]; exact Hout|].
    destruct (inheritedKey _); [discriminate|].
    set (p := Js.toLowerCase (Resource.protocol r)).
    assert (Hfresh : servicesResolve (Family.mk (Some ∅) (Some ∅) None None)).
    { intros n R H. unfold routersOf in H. simpl in H.
      rewrite lookup_empty in H. discriminate. }
    destruct (out !! p) as [f0|] eqn:E.
    + rewrite E. destruct (Family.routers f0); [|discriminate].
      destruct (Family.services f0); [|discriminate].
      intros [= <-]. apply insert_resolves; [|exact Hout].
      apply raw_write_resolves. exact (Hout _ _ E).
    + rewrite lookup_insert_eq. simpl. intros [= <-].
      apply insert_resolves; [apply raw_write_resolves; exact Hfresh|].
      apply insert_resolves; [exact Hfresh|exact Hout].
Qed.

Lemma emitAll_resolves groups : forall out out',
  documentResolves out -> emitAll groups out = Js.Returned out' ->
  documentResolves out'.
Proof.
  induction groups as [|[k r] groups IH]; intros out out' Hout; simpl.
  - intros [= <-]. exact Hout.
  - unfold mbind, outcome_bind, Js.bind.
    destruct (emitGroup k r out) as [out1|] eqn:E; [|discriminate].
    apply IH. exact (emitGroup_resolves _ _ _ _ Hout E).
Qed.

(** X15. In every document the function returns, each router of each
    protocol family names a service that the same family defines. *)
Theorem returned_routers_have_services rows out :
  getTraefikConfig rows = Js.Returned out -> documentResolves out.
Proof.
  unfold getTraefikConfig.
  destruct (List.length (aggregate rows) =? 0)%nat.
  - intros [= <-] p f H. rewrite lookup_empty in H. discriminate.
  - apply emitAll_resolves. intros p f H. unfold initialOutput in H.
    apply lookup_singleton_Some in H as [_ <-].
    intros n R HR. unfold routersOf in HR. simpl in HR.
    rewrite lookup_empty in HR. discriminate.
Qed.

(** *** Groups the loop passes over *)

Lemma emitGroup_skips k r out :
  skipsGroup r = true -> emitGroup k r out = Js.Returned out.
Proof.
  unfold skipsGroup, emitGroup, emitRaw.
  destruct (negb (Resource.enabled r)); [reflexivity|]. simpl.
  destruct (Resource.http r).
  - destruct (Resource.fullDomain r) as [[|c fullDomain]|]; simpl;
      try reflexivity; rewrite ?orb_true_r; try reflexivity.
    rewrite orb_false_r. intros ->. reflexivity.
  - intros ->. reflexivity.
Qed.

Lemma emitAll_skips groups out :
  Forall (fun g => skipsGroup g.2 = true) groups ->
  emitAll groups out = Js.Returned out.
Proof.
  induction groups as [|[k r] groups IH]; intros Hall; [reflexivity|].
  apply Forall_cons in Hall as [Hr Hrest]. simpl.
  rewrite (emitGroup_skips k r out Hr). exact (IH Hrest).
Qed.

Lemma aggregate_skips rows :
  Forall (fun row => skipsRow row = true) rows ->
  Forall (fun g => skipsGroup g.2 = true) (aggregate rows).
Proof.
  intros Hrows. apply Forall_forall. intros [k r] Hin.
  apply list_elem_of_In, aggregate_groups in Hin as (row & ts & Hin & _ & _ & ->).
  rewrite Forall_forall in Hrows. exact (Hrows row (proj2 (list_elem_of_In _ _) Hin)).
Qed.

(** X16. When every row belongs to a resource the loop passes over (a
    disabled resource, an HTTP resource without domain id or full domain, a
    non-HTTP resource without proxy or proxy port), nothing is written: the
    function returns the document it started from, or the empty object when
    no group came out of the aggregation. *)
Theorem skipped_groups_write_nothing rows :
  Forall (fun row => skipsRow row = true) rows ->
  getTraefikConfig rows
  = Js.Returned (match aggregate rows with
                 | [] => ∅
                 | _ :: _ => initialOutput
                 end).
Proof.
  intros Hrows. unfold getTraefikConfig.
  pose proof (aggregate_skips rows Hrows) as Hgroups.
  destruct (aggregate rows) as [|g groups]; [reflexivity|].
  simpl Nat.eqb. cbv iota. apply emitAll_skips. exact Hgroups.
Qed.

(** *** The protocol families of the document *)

Lemma emitGroup_families k r out out' p :
  emitGroup k r out = Js.Returned out' -> is_Some (out' !! p) ->
  is_Some (out !! p)
  \/ (Resource.http r = false /\ Js.toLowerCase (Resource.protocol r) = p
      /\ skipsGroup r = false).
Proof.
  unfold emitGroup, skipsGroup.
  destruct (negb (Resource.enabled r)); [intros [= <-]; auto|]. simpl.
  destruct (Resource.http r).
  - destruct (Resource.fullDomain r) as [fullDomain|]; [|intros [= <-]; auto].
    destruct (_ || _); [intros [= <-]; auto|].
    destruct (out !! "http") as [f|] eqn:E; [|discriminate].
    intros [= <-]. rewrite lookup_insert. case_decide; [subst; eauto|auto].
  - unfold emitRaw. destruct (_ || _); [intros [= <-]; auto|].
    destruct (inheritedKey _); [discriminate|].
    set (q := Js.toLowerCase (Resource.protocol r)).
    destruct (out !! q) as [f0|] eqn:E.
    + rewrite E. destruct (Family.routers f0); [|discriminate].
      destruct (Family.services f0); [|discriminate].
      intros [= <-]. rewrite lookup_insert. case_decide; [subst; eauto|auto].
    + rewrite lookup_insert_eq. simpl. intros [= <-].
      rewrite !lookup_insert. case_decide; [auto|auto].
Qed.

Lemma emitAll_families groups : forall out out' p,
  emitAll groups out = Js.Returned out' -> is_Some (out' !! p) ->
  is_Some (out !! p)
  \/ exists g, In g groups /\ Resource.http g.2 = false
                /\ Js.toLowerCase (Resource.protocol g.2) = p
                /\ skipsGroup g.2 = false.
Proof.
  induction groups as [|[k r] groups IH]; intros out out' p; simpl.
  - intros [= <-]. auto.
  - unfold mbind, outcome_bind, Js.bind.
    destruct (emitGroup k r out) as [out1|] eqn:E; [|discriminate].
    intros Hall Hp. destruct (IH _ _ _ Hall Hp) as [H1|(g & Hin & Hg)].
    + destruct (emitGroup_families _ _ _ _ _ E H1) as [H0|Hr]; [auto|].
      right. exists (k, r). auto.
    + right. exists g. auto.
Qed.

(** X17. The keys of a returned document: besides [http], a protocol
    family is there only if some row of a non-HTTP resource that the loop
    does not pass over names that protocol, in lower case. No tcp or udp
    section appears without such a resource. *)
Theorem families_come_from_rows rows out p :
  getTraefikConfig rows = Js.Returned out -> is_Some (out !! p) ->
  p = "http"
  \/ exists row, In row rows /\ DbRow.http row = false
                  /\ Js.toLowerCase (DbRow.protocol row) = p
                  /\ skipsRow row = false.
Proof.
  unfold getTraefikConfig.
  destruct (List.length (aggregate rows) =? 0)%nat.
  - intros [= <-] [f Hf]. rewrite lookup_empty in Hf. discriminate.
  - intros Hall Hp.
    destruct (emitAll_families _ _ _ _ Hall Hp) as [[f Hf]|([k r] & Hin & Hg)].
    + left. unfold initialOutput in Hf. apply lookup_singleton_Some in Hf as [<- _].
      reflexivity.
    + right. apply aggregate_groups in Hin as (row & ts & Hin & _ & _ & ->).
      exists row. split; [exact Hin|exact Hg].
Qed.

End DocumentShape.

(** ** Priority range and wildcard domains *)

Section PriorityRange.

Implicit Types r : Resource.t.

(** X18. Without an override the priority lies between 1 and 115; a
    normal router reaches the priority 2000 of a maintenance router only
    through an explicit override, which it then carries verbatim. *)
Theorem priority_range r :
  (neutralPriority r -> 1 <= priority r <= 115)
  /\ (2000 <= priority r -> priority r = Resource.priority r /\ ~ neutralPriority r).
Proof.
  assert (Hneutral : neutralPriority r -> 1 <= priority r <= 115).
  { intros N. rewrite (priority_neutral r N).
    destruct (hasPathSpec r); [|lia].
    destruct (decide (Resource.path r = Some "/")); [lia|].
    unfold matchBonus. repeat case_decide; lia. }
  split; [exact Hneutral|]. intros Hbig.
  destruct (Z.eq_dec (Resource.priority r) 0) as [H0|H0].
  { specialize (Hneutral (or_intror H0)). lia. }
  destruct (Z.eq_dec (Resource.priority r) 100) as [H100|H100].
  { specialize (Hneutral (or_introl H100)). lia. }
  split; [apply priority_override; assumption|]. intros [N|N]; contradiction.
Qed.

End PriorityRange.

Section Wildcards.

Implicit Types (r : Resource.t) (s first rest fullDomain : string).

Lemma split_not_nil (sep : ascii) s : Js.split sep s <> [].
Proof.
  destruct s as [|c s]; simpl; [discriminate|].
  destruct (Ascii.eqb c sep); [discriminate|].
  destruct (Js.split sep s); discriminate.
Qed.

Lemma concat_cons_char (sep : string) (c : ascii) (h : string) (t : list string) :
  String.concat sep (String c h :: t) = String c (String.concat sep (h :: t)).
Proof. destruct t; reflexivity. Qed.

(** Splitting at the dots and joining with dots gives the string back. *)
Lemma join_split s : Js.join "." (Js.split "."%char s) = s.
Proof.
  unfold Js.join. induction s as [|c s IH]; [reflexivity|]. simpl.
  destruct (Ascii.eqb_spec c ".") as [->|Hc].
  - pose proof (split_not_nil "." s) as Hne.
    destruct (Js.split "." s) as [|h t]; [contradiction|].
    change (String.concat "." ("" :: h :: t))
      with ("." +:+ String.concat "." (h :: t)).
    rewrite IH. reflexivity.
  - pose proof (split_not_nil "." s) as Hne.
    destruct (Js.split "." s) as [|h t]; [contradiction|].
    rewrite concat_cons_char, IH. reflexivity.
Qed.

Lemma split_first_label first rest :
  countChar "." first = O ->
  Js.split "."%char (first +:+ "." +:+ rest) = first :: Js.split "."%char rest.
Proof.
  induction first as [|c first IH]; intros Hdots.
  - reflexivity.
  - simpl in Hdots. change (String c first +:+ "." +:+ rest)
      with (String c (first +:+ "." +:+ rest)). simpl.
    destruct (Ascii.eqb c "."); [discriminate|].
    rewrite IH by exact Hdots. reflexivity.
Qed.

(** X19. The wildcard domain of a resource with a subdomain. Both branches
    strip the first label of a full domain [first.rest] and put a star in
    its place when [rest] itself has a dot; on a full domain of at most two
    labels the normal branch puts the star in front of the whole domain
    instead. *)
Theorem wildcard_shapes r :
  Js.truthyS (Resource.subdomain r) = true ->
  (forall first rest,
     countChar "." first = O ->
     maintenanceWildCard r (first +:+ "." +:+ rest) = "*." +:+ rest
     /\ ((0 < countChar "." rest)%nat ->
         wildCard r (first +:+ "." +:+ rest) = "*." +:+ rest))
  /\ (forall fullDomain,
        (List.length (Js.split "."%char fullDomain) <= 2)%nat ->
        wildCard r fullDomain = "*." +:+ fullDomain).
Proof.
  intros Hsub. split.
  - intros first rest Hfirst. unfold maintenanceWildCard, wildCard.
    rewrite Hsub, (split_first_label first rest Hfirst). simpl Js.slice1.
    rewrite join_split. split; [reflexivity|]. intros Hdot. simpl negb. cbv iota.
    assert (Hlen : (2 <= List.length (Js.split "."%char rest))%nat).
    { clear -Hdot. induction rest as [|c rest IH]; simpl in Hdot; [lia|].
      simpl. destruct (Ascii.eqb_spec c ".") as [->|Hc].
      - pose proof (split_not_nil "." rest).
        destruct (Js.split "." rest); [contradiction|simpl; lia].
      - simpl in Hdot. specialize (IH Hdot).
        destruct (Js.split "." rest); simpl in *; lia. }
    simpl List.length.
    destruct (Nat.leb_spec (S (List.length (Js.split "."%char rest))) 2); [lia|].
    reflexivity.
  - intros fullDomain Hlen. unfold wildCard. rewrite Hsub. simpl negb. cbv iota.
    destruct (Nat.leb_spec (List.length (Js.split "."%char fullDomain)) 2); [|lia].
    rewrite join_split. reflexivity.
Qed.

End Wildcards.

(** ** The rule of a path spec and the non-HTTP branch *)

Section RuleShape.

Implicit Types (r : Resource.t) (fullDomain p : string).

(** X20. The rule always begins with the host match, and is the host
    match alone without a path spec or with a match type other than exact,
    prefix and regex. For exact and prefix the path in the rule begins with
    a slash: the path itself, or the path with a slash put in front. For
    regex the path is used as it stands. *)
Theorem rule_shape r fullDomain :
  (exists rest, rule r fullDomain = hostRule fullDomain +:+ rest)
  /\ (hasPathSpec r = false \/ matchBonus (Resource.pathMatchType r) = 0 ->
      rule r fullDomain = hostRule fullDomain)
  /\ (forall p, Resource.path r = Some p -> hasPathSpec r = true ->
        (Resource.pathMatchType r = Some "exact" \/
         Resource.pathMatchType r = Some "prefix" ->
         exists word q,
           rule r fullDomain
           = hostRule fullDomain +:+ " && " +:+ word +:+ "(`" +:+ q +:+ "`)"
           /\ Js.startsWithSlash q = true /\ (q = p \/ q = "/" +:+ p))
        /\ (Resource.pathMatchType r = Some "regex" ->
            rule r fullDomain
            = hostRule fullDomain +:+ " && PathRegexp(`" +:+ p +:+ "`)")).
Proof.
  assert (Hnil : forall s : string, s +:+ "" = s).
  { induction s as [|c s IH]; [reflexivity|].
    change (String c s +:+ "") with (String c (s +:+ "")). rewrite IH. reflexivity. }
  assert (Hassoc : forall a b c : string, (a +:+ b) +:+ c = a +:+ b +:+ c).
  { intros a b c. induction a as [|x a IH]; [reflexivity|].
    change (String x a +:+ b) with (String x (a +:+ b)).
    change (String x (a +:+ b) +:+ c) with (String x ((a +:+ b) +:+ c)).
    rewrite IH. reflexivity. }
  split.
  { unfold rule. destruct (hasPathSpec r); [|exists ""; rewrite Hnil; reflexivity].
    destruct (matchTypeIs r "exact"); [eexists; reflexivity|].
    destruct (matchTypeIs r "prefix"); [eexists; reflexivity|].
    destruct (matchTypeIs r "regex"); [eexists; reflexivity|].
    exists "". rewrite Hnil. reflexivity. }
  split.
  { unfold rule, matchBonus, matchTypeIs. intros [->|Hb]; [reflexivity|].
    destruct (hasPathSpec r); [|reflexivity].
    destruct (Resource.pathMatchType r) as [m|]; [|reflexivity].
    repeat case_decide; try lia;
      repeat (match goal with
              | |- context [String.eqb ?a ?b] =>
                  destruct (String.eqb_spec a b); [congruence|]
              end); reflexivity. }
  intros p Hp Hspec. unfold rule, matchTypeIs. rewrite Hspec, Hp. simpl Js.orEmpty.
  split.
  - intros Hm.
    exists (if decide (Resource.pathMatchType r = Some "exact")
            then "Path" else "PathPrefix"),
           (if Js.startsWithSlash p then p else "/" +:+ p).
    split; [|split].
    + destruct Hm as [-> | ->]; reflexivity.
    + destruct (Js.startsWithSlash p) eqn:E; [exact E|reflexivity].
    + destruct (Js.startsWithSlash p); auto.
  - intros ->. reflexivity.
Qed.

End RuleShape.

Section RawBranch.

Variable createPathRewriteMiddleware :
  string -> string -> string -> string -> string -> option RewriteResult.t.
Variable parseHeaders : string -> option (list (string * string)).
Variable traefik : Traefik.t.

Local Abbreviation emitGroup := (emitGroup createPathRewriteMiddleware parseHeaders traefik).

Implicit Types (k : option string) (r : Resource.t) (out : ConfigOutput).

(** X21. One loop iteration on a non-HTTP group with proxy and port, whose
    protocol reads tcp or udp in lower case: the family of that protocol
    gets the router of the group, on the entry point named after protocol
    and port, with the catch-all SNI rule for tcp and no rule for udp, and
    the service of the group with its backend list. No other router of the
    family and no other family changes. *)
Theorem raw_group_emission k r out (port : Z) (p : string) :
  Resource.enabled r = true -> Resource.http r = false ->
  Js.truthyB (Resource.enableProxy r) = true ->
  Resource.proxyPort r = Some port -> port <> 0 ->
  Js.toLowerCase (Resource.protocol r) = p -> p = "tcp" \/ p = "udp" ->
  rawFamiliesReady out ->
  exists out' f' R S,
    emitGroup k r out = Js.Returned out'
    /\ out' !! p = Some f'
    /\ routersOf f' !! routerName k r = Some R
    /\ Router.entryPoints R = [p +:+ "-" +:+ pretty port]
    /\ Router.service R = serviceName k r
    /\ Router.rule R = (if String.eqb p "tcp" then Some "HostSNI(`*`)" else None)
    /\ Router.priority R = None /\ Router.tls R = None
    /\ servicesOf f' !! serviceName k r = Some S
    /\ Service.servers S = rawServers (Resource.targets r)
    /\ (forall n, n <> routerName k r ->
          routersOf f' !! n
          = match out !! p with Some f => routersOf f !! n | None => None end)
    /\ (forall q, q <> p -> out' !! q = out !! q).
Proof.
  intros Hen Hhttp Hproxy Hport Hnz Hp Hplain Hready.
  assert (Hne : p <> "http") by (destruct Hplain as [-> | ->]; discriminate).
  assert (Hinh : inheritedKey p = false) by (destruct Hplain as [-> | ->]; reflexivity).
  unfold emitGroup, emitRaw. rewrite Hen, Hhttp, Hproxy, Hport, Hp, Hinh. simpl.
  destruct (Z.eqb_spec port 0) as [Hz|Hz]; [contradiction|]. simpl.
  destruct (out !! p) as [f0|] eqn:E.
  - rewrite E. destruct (Hready p f0 Hne E) as [[rs Hrs] [ss Hss]].
    rewrite Hrs, Hss.
    eexists _, _, (rawRouter k r p), (rawService traefik r p).
    split; [reflexivity|]. split; [apply lookup_insert_eq|].
    split; [apply lookup_insert_eq|]. unfold rawRouter. simpl. rewrite Hport.
    repeat (split; [reflexivity|]).
    split; [apply lookup_insert_eq|]. split; [reflexivity|]. split.
    + intros n Hn. rewrite routersOf_setService, routersOf_setRouter.
      apply lookup_insert_ne. congruence.
    + intros q Hq. apply lookup_insert_ne. congruence.
  - rewrite lookup_insert_eq. simpl.
    eexists _, _, (rawRouter k r p), (rawService traefik r p).
    split; [reflexivity|]. split; [apply lookup_insert_eq|].
    split; [apply lookup_insert_eq|]. unfold rawRouter. simpl. rewrite Hport.
    repeat (split; [reflexivity|]).
    split; [apply lookup_insert_eq|]. split; [reflexivity|]. split.
    + intros n Hn. rewrite routersOf_setService, routersOf_setRouter.
      rewrite lookup_insert_ne by congruence. unfold routersOf. simpl.
      apply lookup_empty.
    + intros q Hq. rewrite !lookup_insert_ne by congruence. reflexivity.
Qed.

End RawBranch.

(** ** The further properties on sample inputs *)

(** The override beats the [Host] entry of the parsed list; a list that
    does not parse, without override, leaves the header set empty. *)
Lemma host_header_override_witness :
  headersObj Fixture.twoHeaders
    (Fixture.webGroup None (Some "[...]") (Some "app.internal") None) !! "Host"
  = Some "app.internal"
  /\ headersObj Sample.noHeaders (Fixture.webGroup None (Some "{") None None) = ∅.
Proof.
  split.
  - exact (proj1 (host_header_override Fixture.twoHeaders None
                    (Fixture.webGroup None (Some "[...]") (Some "app.internal") None)
                    (Sample.freshHttp, [])) "app.internal" eq_refl eq_refl).
  - exact (proj1 (proj2 (host_header_override Sample.noHeaders None
                           (Fixture.webGroup None (Some "{") None None)
                           (Sample.freshHttp, []))
                    (fun text _ => eq_refl) eq_refl)).
Defined.

(** The document of one HTTP row and one TCP row. *)
Lemma returned_routers_have_services_witness :
  exists out,
    getTraefikConfig Sample.sanitize Sample.acceptAll Sample.rewriteOne
      Sample.noHeaders (Sample.traefik None)
      [Sample.httpRow 1 None None None None;
       Sample.row false None "tcp" 2 (Some "/raw") None None None] = Js.Returned out
    /\ documentResolves out.
Proof.
  eexists. split; [reflexivity|].
  eapply (returned_routers_have_services Sample.sanitize Sample.acceptAll
            Sample.rewriteOne Sample.noHeaders (Sample.traefik None)
            [Sample.httpRow 1 None None None None;
             Sample.row false None "tcp" 2 (Some "/raw") None None None]).
  reflexivity.
Defined.

(** An HTTP resource without domain id: the document stays as created. *)
Lemma skipped_groups_write_nothing_witness :
  getTraefikConfig Sample.sanitize Sample.acceptAll Sample.rewriteOne
    Sample.noHeaders (Sample.traefik None)
    [Sample.row true None "tcp" 1 None None None None] = Js.Returned initialOutput.
Proof.
  refine (skipped_groups_write_nothing Sample.sanitize Sample.acceptAll
            Sample.rewriteOne Sample.noHeaders (Sample.traefik None)
            [Sample.row true None "tcp" 1 None None None None] _).
  constructor; [reflexivity|constructor].
Defined.

(** The [tcp] family of a document comes from a row of a TCP resource. *)
Lemma families_come_from_rows_witness :
  "tcp" = "http"
  \/ exists row,
       In row [Sample.row false None "TCP" 1 None None None None]
       /\ DbRow.http row = false /\ Js.toLowerCase (DbRow.protocol row) = "tcp"
       /\ skipsRow row = false.
Proof.
  refine (families_come_from_rows Sample.sanitize Sample.acceptAll Sample.rewriteOne
            Sample.noHeaders (Sample.traefik None)
            [Sample.row false None "TCP" 1 None None None None] _ "tcp" _ _).
  - reflexivity.
  - eexists. reflexivity.
Defined.

(** [app.example.com] with subdomain [app]. *)
Lemma wildcard_shapes_witness :
  maintenanceWildCard (Sample.tlsGroup "app.example.com" (Some "app") None)
    ("app" +:+ "." +:+ "example.com") = "*." +:+ "example.com"
  /\ wildCard (Sample.tlsGroup "app.example.com" (Some "app") None)
       ("app" +:+ "." +:+ "example.com") = "*." +:+ "example.com".
Proof.
  destruct (proj1 (wildcard_shapes (Sample.tlsGroup "app.example.com" (Some "app") None)
                     eq_refl) "app" "example.com" eq_refl) as [Hm Hn].
  split; [exact Hm|]. apply Hn. vm_compute. lia.
Defined.

(** A group without override and with an exact path spec. *)
Lemma priority_range_witness :
  1 <= priority (Sample.pathGroup 100 (Some "/api") (Some "exact")) <= 115.
Proof.
  apply (priority_range (Sample.pathGroup 100 (Some "/api") (Some "exact"))).
  left. reflexivity.
Defined.

(** A TCP group written into a fresh document. *)
Lemma raw_group_emission_witness :
  exists out' f' R S,
    emitGroup Sample.rewriteOne Sample.noHeaders (Sample.traefik None) (Some "2")
      (Fixture.rawGroup "TCP" [Sample.target 1 "local" true "10.0.0.5" 8080])
      initialOutput = Js.Returned out'
    /\ out' !! "tcp" = Some f'
    /\ routersOf f' !! "2-db-router" = Some R
    /\ Router.entryPoints R = ["tcp-5432"]
    /\ servicesOf f' !! "2-db-service" = Some S
    /\ Service.servers S = [Some (Address "10.0.0.5:8080")].
Proof.
  destruct (raw_group_emission Sample.rewriteOne Sample.noHeaders (Sample.traefik None)
              (Some "2")
              (Fixture.rawGroup "TCP" [Sample.target 1 "local" true "10.0.0.5" 8080])
              initialOutput 5432 "tcp" eq_refl eq_refl eq_refl eq_refl
              ltac:(discriminate) eq_refl (or_introl eq_refl) initialOutput_ready)
    as (out' & f' & R & S & H1 & H2 & H3 & H4 & _ & _ & _ & _ & H5 & H6 & _).
  exists out', f', R, S. repeat split; assumption.
Defined.

(** The chain of a group with rewrite configuration and headers: auth
    first, then the rewrite middleware, then the headers middleware. *)
Example chain_with_rewrite_and_headers :
  exists R,
    routersOf (emitNormal Sample.rewriteOne Fixture.twoHeaders (Sample.traefik None)
                 (Some "1") (Fixture.webGroup (Some "/v2") (Some "[...]") None None)
                 "example.com" Sample.freshHttp) !! "1-app-router" = Some R
    /\ Router.middlewares R
       = Some ["badger"; "rewrite-r1-1"; "1-headers-middleware"]
    /\ Router.rule R = Some "Host(`example.com`) && PathPrefix(`/api`)"
    /\ Router.priority R = Some 113.
Proof. eexists. split; [reflexivity|]. repeat split. Qed.

(** Three rows with one key, the first of them rejected for rewriting
    without a match type: the group has the targets of the second and the
    third row, and the match type of the second. The third row joins
    without being validated. *)
Example closed_form_sample :
  option_map (fun g => (List.map Target.targetId (Resource.targets g),
                        Resource.pathMatchType g))
    (mapGet (key Sample.sanitize (Sample.httpRow 8 (Some "/a") (Some "prefix") None None))
       (aggregate Sample.sanitize
          (fun _ pathMatchType rewritePath _ =>
             Js.truthyS pathMatchType || negb (Js.truthyS rewritePath))
          [Sample.httpRow 7 (Some "/a") None (Some "prefix") None;
           Sample.httpRow 8 (Some "/a") (Some "prefix") None None;
           Sample.httpRow 9 (Some "/a") None (Some "prefix") None]))
  = Some ([8; 9], Some "prefix").
Proof. reflexivity. Qed.
